(** * suds/cache.py: the object caches of suds, and their specification

    A shallow embedding of [suds/cache.py] (classes [Cache], [NoCache],
    [FileCache], [DocumentCache] and [ObjectCache]) and the properties of the
    specification that can be settled on it.

    The module is Python 2 code (on Python 3 it runs through 2to3, with the
    same meaning) working on the file system, so the embedding is a
    state-and-exception monad over a small model of what the module can
    observe of its environment:

    - the cache folders, each a flat directory of regular files and
      sub-directories.  The name of an entry is kept whole, which is what
      the file system does for a name of one component ([file_name_ok]);
      the properties that rely on it ask for such an id, as the callers of
      the cache are meant to supply;
    - the clock read by [datetime.datetime.now()];
    - the file objects that were opened and not closed;
    - whether [os.makedirs] is able to create a missing folder.

    Failures of the environment are the structural ones: a folder that does
    not exist and cannot be created, an entry that is missing, an entry that
    is a directory, a file whose content cannot be read back.  Calls to the
    logger have no effect on the caches and are left out. *)

From stdpp Require Import gmap strings list fin_maps.
From Stdlib Require Import ZArith Ascii.

Open Scope string_scope.
Open Scope Z_scope.

(** ** Python values and exceptions *)

(** The objects handed to and returned by the caches.  [PyStr] is a byte
    string, [Element] stands for the instances of
    [suds.sax.element.Element] and [Object] for every other kind of
    object. *)
Inductive pyobj (Element Object : Type) : Type :=
  | PyNone
  | PyStr (s : string)
  | PyElement (e : Element)
  | PyObject (o : Object).

Arguments PyNone {Element Object}.
Arguments PyStr {Element Object} s.
Arguments PyElement {Element Object} e.
Arguments PyObject {Element Object} o.

(** The exceptions met by the module; all of them derive from [Exception]. *)
Inductive exn : Type :=
  | IOError
  | OSError
  | TypeError
  | ValueError
  | IndexError
  | AttributeError
  | OverflowError
  | PicklingError
  | UnpicklingError
  | SAXParseException
  | Exception (msg : string).

(** What the module imports and is not part of it: the document model and
    parser of [suds.sax], [pickle] and the version string of the package. *)
Class Imports : Type := {
  Element : Type;
  Object : Type;
  (** [suds.byte_str(str(e))] for an element [e] *)
  Element_str : Element → string;
  (** [Parser().parse] on the content of a file: the document built,
      whatever its class; [None] when it raises *)
  Parser_parse : string → option (pyobj Element Object);
  (** whether the parser closes the file it was given (the expat reader of
      [xml.sax] does on recent interpreters) *)
  Parser_closes : bool;
  (** the bytes [write] puts into a file for an object that is not a byte
      string but is taken as one (a [bytearray], a [buffer]); [None] for the
      objects [write] refuses *)
  Object_bytes : Object → option string;
  (** [pickle.dumps(o, 2)]; [None] when the object cannot be pickled *)
  pickle_dumps : pyobj Element Object → option string;
  (** [pickle.load] on the content of a file; [None] when it raises *)
  pickle_load : string → option (pyobj Element Object);
  (** [suds.__version__] *)
  suds___version__ : string
}.

Abbreviation object := (pyobj Element Object).

(** ** The environment *)

Inductive content : Type :=
  | Bytes (b : string)
  | Damaged.                (* reading the file back raises IOError *)

Inductive node : Type :=
  | File (c : content) (ctime : Z)
  | Dir (ctime : Z).

Record world : Type := World {
  dirs : gmap string (gmap string node); (* the folders, by path *)
  mkdir_ok : bool;                       (* can os.makedirs create a folder *)
  clock : Z;                             (* now, in microseconds *)
  opened : gset nat;                     (* file objects not yet closed *)
  tempdir : string                       (* tempfile.gettempdir() *)
}.

Definition set_dirs (d : gmap string (gmap string node)) (w : world) : world :=
  World d (mkdir_ok w) (clock w) (opened w) (tempdir w).

Definition set_opened (o : gset nat) (w : world) : world :=
  World (dirs w) (mkdir_ok w) (clock w) o (tempdir w).

Definition set_clock (t : Z) (w : world) : world :=
  World (dirs w) (mkdir_ok w) t (opened w) (tempdir w).

(** A path below a folder, as built by [os.path.join(folder, name)].  The
    name is kept whole; the path is the one the file system resolves when the
    name has one component ([file_name_ok] below). *)
Record path : Type := Path { folder : string; base : string }.

Definition os_path_join (loc name : string) : path := Path loc name.

Definition lookup_path (p : path) (w : world) : option node :=
  match dirs w !! folder p with
  | Some d => d !! base p
  | None => None
  end.

Definition update_path (p : path) (n : option node) (w : world) : world :=
  match dirs w !! folder p with
  | Some d =>
      set_dirs (<[folder p := match n with
                              | Some x => <[base p := x]> d
                              | None => delete (base p) d
                              end]> (dirs w)) w
  | None => w
  end.

Inductive mode : Type := ModeRead | ModeWrite.

(** A Python file object. *)
Record file : Type := FileObject {
  fileno : nat;
  name : path;
  fmode : mode;
  snapshot : content          (* what a reader gets, fixed when opening *)
}.

(** ** The monad: a state and an exception *)

Inductive outcome (A : Type) : Type :=
  | Return (a : A)
  | Raise (e : exn).

Arguments Return {A} a.
Arguments Raise {A} e.

Definition M (A : Type) : Type := world → outcome A * world.

Definition ret {A} (a : A) : M A := λ w, (Return a, w).

Definition raise {A} (e : exn) : M A := λ w, (Raise e, w).

Definition bind {A B} (m : M A) (k : A → M B) : M B :=
  λ w, match m w with
       | (Return a, w') => k a w'
       | (Raise e, w') => (Raise e, w')
       end.

(** [try: body except Exception: handler] *)
Definition try_except {A} (body : M A) (handler : exn → M A) : M A :=
  λ w, match body w with
       | (Return a, w') => (Return a, w')
       | (Raise e, w') => handler e w'
       end.

(** [try: body finally: final] *)
Definition try_finally {A} (body : M A) (final : M unit) : M A :=
  λ w, match body w with
       | (r, w') =>
           match final w' with
           | (Return _, w'') => (r, w'')
           | (Raise e, w'') => (Raise e, w'')
           end
       end.

#[global] Instance M_ret : MRet M := @ret.
#[global] Instance M_bind : MBind M := λ A B k m, bind m k.

(** [for x in l: body x] *)
Fixpoint for_each {A} (l : list A) (body : A → M unit) : M unit :=
  match l with
  | [] => ret tt
  | x :: l' => body x;; for_each l' body
  end.

(** ** The operating system *)

Definition tempfile_gettempdir : M string := λ w, (Return (tempdir w), w).

(** [os.path.join] of a folder and a sub-folder, both as strings. *)
Definition os_path_join_folder (a b : string) : string := a +:+ "/" +:+ b.

(** [os.path.isdir] on a folder. *)
Definition os_path_isdir_folder (loc : string) : M bool :=
  λ w, (Return (bool_decide (is_Some (dirs w !! loc))), w).

(** [os.path.isdir] on a path below a folder. *)
Definition os_path_isdir (p : path) : M bool :=
  λ w, (Return (match lookup_path p w with
                | Some (Dir _) => true
                | _ => false
                end), w).

Definition os_makedirs (loc : string) : M unit :=
  λ w, match dirs w !! loc with
       | Some _ => (Raise OSError, w)
       | None => if mkdir_ok w
                 then (Return tt, set_dirs (<[loc := ∅]> (dirs w)) w)
                 else (Raise OSError, w)
       end.

Definition os_listdir (loc : string) : M (list string) :=
  λ w, match dirs w !! loc with
       | Some d => (Return (map_to_list d).*1, w)
       | None => (Raise OSError, w)
       end.

Definition os_remove (p : path) : M unit :=
  λ w, match lookup_path p w with
       | Some (File _ _) => (Return tt, update_path p None w)
       | _ => (Raise OSError, w)
       end.

Definition os_path_getctime (p : path) : M Z :=
  λ w, match lookup_path p w with
       | Some (File _ t) => (Return t, w)
       | Some (Dir t) => (Return t, w)
       | None => (Raise OSError, w)
       end.

(** [open(p, mode)]: opening for writing creates or truncates the file, and
    the change time of the file is the time of its last change. *)
Definition open_ (p : path) (m : mode) : M file :=
  λ w, let fd := fresh (opened w) in
       match m with
       | ModeRead =>
           match lookup_path p w with
           | Some (File c _) =>
               (Return (FileObject fd p ModeRead c),
                set_opened ({[fd]} ∪ opened w) w)
           | _ => (Raise IOError, w)
           end
       | ModeWrite =>
           match dirs w !! folder p, lookup_path p w with
           | Some _, Some (File _ _) | Some _, None =>
               (Return (FileObject fd p ModeWrite (Bytes "")),
                set_opened ({[fd]} ∪ opened w)
                  (update_path p (Some (File (Bytes "") (clock w))) w))
           | _, _ => (Raise IOError, w)
           end
       end.

(** [f.read()], where [f] may be [None]. *)
Definition file_read `{Imports} (f : option file) : M object :=
  match f with
  | None => raise AttributeError
  | Some f =>
      match fmode f, snapshot f with
      | ModeRead, Bytes b => ret (PyStr b)
      | _, _ => raise IOError
      end
  end.

(** The bytes that [f.write(data)] writes, for the values it takes. *)
Definition bytes_of `{Imports} (data : object) : option string :=
  match data with
  | PyStr s => Some s
  | PyObject o => Object_bytes o
  | PyNone | PyElement _ => None
  end.

(** [f.write(data)] *)
Definition file_write `{Imports} (f : file) (data : object) : M unit :=
  match fmode f, bytes_of data with
  | ModeWrite, Some s =>
      λ w, match lookup_path (name f) w with
           | Some (File (Bytes old) _) =>
               (Return tt,
                update_path (name f) (Some (File (Bytes (old +:+ s)) (clock w))) w)
           | _ => (Raise IOError, w)
           end
  | ModeWrite, None => raise TypeError
  | ModeRead, _ => raise IOError
  end.

(** [f.close()], where [f] may be [None]. *)
Definition file_close (f : option file) : M unit :=
  match f with
  | None => raise AttributeError
  | Some f => λ w, (Return tt, set_opened (opened w ∖ {[fileno f]}) w)
  end.

(** ** datetime *)

(** Times are counted in microseconds; [datetime] covers the years 1 to
    9999 and [timedelta] at most 999999999 days on either side. *)
Definition datetime_min : Z := -62135596800000000.
Definition datetime_max : Z := 253402300799999999.
Definition timedelta_min : Z := -86399999913600000000.
Definition timedelta_max : Z := 86399999999999999999.

Definition datetime_fromtimestamp (t : Z) : M Z :=
  if (datetime_min <=? t) && (t <=? datetime_max) then ret t
  else raise ValueError.

Definition datetime_now : M Z := λ w, (Return (clock w), w).

(** The keywords [datetime.timedelta] accepts, in microseconds. *)
Definition timedelta_keyword (unit : string) : option Z :=
  if String.eqb unit "weeks" then Some 604800000000
  else if String.eqb unit "days" then Some 86400000000
  else if String.eqb unit "hours" then Some 3600000000
  else if String.eqb unit "minutes" then Some 60000000
  else if String.eqb unit "seconds" then Some 1000000
  else if String.eqb unit "milliseconds" then Some 1000
  else if String.eqb unit "microseconds" then Some 1
  else None.

(** [datetime.timedelta( **{unit: value})] *)
Definition timedelta (unit : option string) (value : Z) : M Z :=
  match unit with
  | None => raise TypeError
  | Some u =>
      match timedelta_keyword u with
      | None => raise TypeError
      | Some k =>
          if (timedelta_min <=? value * k) && (value * k <=? timedelta_max)
          then ret (value * k)
          else raise OverflowError
      end
  end.

(** [created + delta] on a [datetime] and a [timedelta]. *)
Definition datetime_add (created delta : Z) : M Z :=
  if (datetime_min <=? created + delta) && (created + delta <=? datetime_max)
  then ret (created + delta)
  else raise OverflowError.

(** ** class Cache *)

Module Cache.

Definition get `{Imports} (id : string) : M object :=
  raise (Exception "not-implemented").

Definition put `{Imports} (id : string) (obj : object) : M object :=
  raise (Exception "not-implemented").

Definition purge (id : string) : M unit :=
  raise (Exception "not-implemented").

Definition clear : M unit :=
  raise (Exception "not-implemented").

End Cache.

(** ** class NoCache(Cache) *)

Module NoCache.

Definition get `{Imports} (id : string) : M object := ret PyNone.

Definition put `{Imports} (id : string) (obj : object) : M object :=
  ret PyNone.

(** Not overridden: the methods of [Cache]. *)
Definition purge (id : string) : M unit := Cache.purge id.

Definition clear : M unit := Cache.clear.

End NoCache.

(** ** class FileCache(Cache) and its subclasses *)

(** The classes that share the methods of [FileCache]; a method that is
    overridden is chosen by the class of [self]. *)
Inductive cache_class : Type := FileCacheClass | DocumentCacheClass | ObjectCacheClass.

(** An instance: its class and its attributes. *)
Record file_cache : Type := Instance_ {
  class_ : cache_class;
  location : string;
  duration : option string * Z
}.

Module FileCache.

Definition fnprefix : string := "suds".

Definition units : list string :=
  ["months"; "weeks"; "days"; "hours"; "minutes"; "seconds"].

(** [fnsuffix] of [FileCache], [DocumentCache] and [ObjectCache]. *)
Definition fnsuffix (self : file_cache) : string :=
  match class_ self with
  | FileCacheClass => "gcf"
  | DocumentCacheClass => "xml"
  | ObjectCacheClass => "px"
  end.

Definition __filename (self : file_cache) (id : string) : path :=
  let suffix := fnsuffix self in
  let filename := fnprefix +:+ "-" +:+ id +:+ "." +:+ suffix in
  os_path_join (location self) filename.

Definition __mktmp (self : file_cache) : M unit :=
  try_except
    (d ← os_path_isdir_folder (location self);
     if negb d then os_makedirs (location self) else ret tt)
    (λ _, ret tt).

Definition __open (self : file_cache) (filename : path) (m : mode) : M file :=
  __mktmp self;;
  open_ filename m.

Definition __remove_if_expired (self : file_cache) (filename : path) : M unit :=
  if (duration self).2 <? 1 then ret tt
  else
    t ← os_path_getctime filename;
    created ← datetime_fromtimestamp t;
    delta ← timedelta (duration self).1 (duration self).2;
    expired ← datetime_add created delta;
    now ← datetime_now;
    if expired <? now then os_remove filename else ret tt.

Definition _getf (self : file_cache) (id : string) : M (option file) :=
  try_except
    (let filename := __filename self id in
     __remove_if_expired self filename;;
     f ← __open self filename ModeRead;
     ret (Some f))
    (λ _, ret None).

Definition get `{Imports} (self : file_cache) (id : string) : M object :=
  try_except
    (f ← _getf self id;
     try_finally (file_read f) (file_close f))
    (λ _, ret PyNone).

Definition purge (self : file_cache) (id : string) : M unit :=
  let filename := __filename self id in
  try_except (os_remove filename) (λ _, ret tt).

Definition put `{Imports} (self : file_cache) (id : string) (data : object)
  : M object :=
  try_except
    (let filename := __filename self id in
     f ← __open self filename ModeWrite;
     try_finally (file_write f data) (file_close (Some f));;
     ret data)
    (λ _, ret data).

Definition clear (self : file_cache) : M unit :=
  filenames ← os_listdir (location self);
  for_each filenames (λ filename : string,
    let path := os_path_join (location self) filename in
    d ← os_path_isdir path;
    if (d : bool) then ret tt
    else if String.prefix fnprefix filename then os_remove path
    else ret tt).

Definition __check_version `{Imports} (self : file_cache) : M unit :=
  let path := os_path_join (location self) "version" in
  try_except
    (f ← __open self path ModeRead;
     version ← try_finally (file_read (Some f)) (file_close (Some f));
     match version with
     | PyStr v => if String.eqb v suds___version__ then ret tt
                  else raise (Exception "")
     | _ => raise (Exception "")
     end)
    (λ _,
     clear self;;
     f ← __open self path ModeWrite;
     try_finally (file_write f (PyStr suds___version__)) (file_close (Some f))).

(** [**duration] is the list of the keywords given, with their values. *)
Definition __set_duration (self : file_cache) (duration : list (string * Z))
  : M file_cache :=
  if (length duration =? 1)%nat then
    match duration with
    | arg :: _ =>
        if negb (bool_decide (arg.1 ∈ units))
        then raise (Exception
          "must be: ('months', 'weeks', 'days', 'hours', 'minutes', 'seconds')")
        else ret (Instance_ (class_ self) (location self) (Some arg.1, arg.2))
    | [] => raise IndexError
    end
  else ret self.

(** [cls(location, **duration)], for [cls] one of the three classes. *)
Definition __init__ `{Imports} (cls : cache_class) (location : option string)
    (duration : list (string * Z)) : M file_cache :=
  location ← match location with
             | None => t ← tempfile_gettempdir;
                       ret (os_path_join_folder t "suds")
             | Some l => ret l
             end;
  let self := Instance_ cls location (None, 0) in
  self ← __set_duration self duration;
  __check_version self;;
  ret self.

End FileCache.

(** ** class DocumentCache(FileCache) *)

Module DocumentCache.

(** [p.parse(fp)]: reads the file and builds the document; the parser
    closes the file or leaves it open, whether it succeeds or raises. *)
Definition Parser_parse_file `{Imports} (fp : file) : M object :=
  try_finally
    (data ← file_read (Some fp);
     match data with
     | PyStr b => match Parser_parse b with
                  | Some doc => ret doc
                  | None => raise SAXParseException
                  end
     | _ => raise TypeError
     end)
    (if Parser_closes then file_close (Some fp) else ret tt).

(** The handler of [get] reads the variable [fp], which is [None] until
    the call of [_getf] has returned. *)
Definition get `{Imports} (self : file_cache) (id : string) : M object :=
  let handler (fp : option file) : exn → M object := λ _,
    (match fp with Some _ => file_close fp | None => ret tt end);;
    FileCache.purge self id;;
    ret PyNone in
  try_except
    (fp ← FileCache._getf self id;
     try_except
       (match fp with
        | None => ret PyNone
        | Some f => Parser_parse_file f
        end)
       (handler fp))
    (handler None).

Definition put `{Imports} (self : file_cache) (id : string) (obj : object)
  : M object :=
  match obj with
  | PyElement e => FileCache.put self id (PyStr (Element_str e));; ret obj
  | _ => ret obj
  end.

End DocumentCache.

(** ** class ObjectCache(FileCache) *)

Module ObjectCache.

Definition protocol : Z := 2.

(** [pickle.load(fp)] *)
Definition pickle_load_file `{Imports} (fp : file) : M object :=
  data ← file_read (Some fp);
  match data with
  | PyStr b => match pickle_load b with
               | Some obj => ret obj
               | None => raise UnpicklingError
               end
  | _ => raise TypeError
  end.

(** [pickle.dumps(obj, protocol)] *)
Definition pickle_dumps_obj `{Imports} (obj : object) : M string :=
  match pickle_dumps obj with
  | Some data => ret data
  | None => raise PicklingError
  end.

Definition get `{Imports} (self : file_cache) (id : string) : M object :=
  let handler (fp : option file) : exn → M object := λ _,
    (match fp with Some _ => file_close fp | None => ret tt end);;
    FileCache.purge self id;;
    ret PyNone in
  try_except
    (fp ← FileCache._getf self id;
     try_except
       (match fp with
        | Some f => pickle_load_file f
        | None => ret PyNone
        end)
       (handler fp))
    (handler None).

Definition put `{Imports} (self : file_cache) (id : string) (obj : object)
  : M object :=
  data ← pickle_dumps_obj obj;
  FileCache.put self id (PyStr data);;
  ret obj.

End ObjectCache.

(** ** A small instance of the imports, to run the caches on examples

    Elements stand for their own text, which parses into a document when it
    starts with an opening angle bracket; the other objects are these
    documents, byte arrays, two booleans, which pickle, and a function, which
    does not.  The parser leaves the file open. *)

Inductive sample_object : Type :=
  | PyTrue
  | PyFalse
  | PyLambda
  | PyDocument (root : string)
  | PyByteArray (b : string).

Definition sample_dumps (o : pyobj string sample_object) : option string :=
  match o with
  | PyNone => Some "N."
  | PyStr s => Some ("S" +:+ s)
  | PyElement e => Some ("E" +:+ e)
  | PyObject PyTrue => Some "T."
  | PyObject PyFalse => Some "F."
  | PyObject PyLambda => None
  | PyObject (PyDocument r) => Some ("D" +:+ r)
  | PyObject (PyByteArray b) => Some ("B" +:+ b)
  end.

Definition sample_load (b : string) : option (pyobj string sample_object) :=
  if String.eqb b "N." then Some PyNone
  else if String.eqb b "T." then Some (PyObject PyTrue)
  else if String.eqb b "F." then Some (PyObject PyFalse)
  else match b with
       | String "S"%char s => Some (PyStr s)
       | String "E"%char e => Some (PyElement e)
       | String "D"%char r => Some (PyObject (PyDocument r))
       | String "B"%char b => Some (PyObject (PyByteArray b))
       | _ => None
       end.

Definition sample_imports : Imports := {|
  Element := string;
  Object := sample_object;
  Element_str := λ e, e;
  Parser_parse := λ b, if String.prefix "<" b
                       then Some (PyObject (PyDocument b)) else None;
  Parser_closes := false;
  Object_bytes := λ o, match o with PyByteArray b => Some b | _ => None end;
  pickle_dumps := sample_dumps;
  pickle_load := sample_load;
  suds___version__ := "0.4.1"
|}.

(** A world with one folder. *)
Definition sample_world (d : gmap string node) (now : Z) : world :=
  World {["/tmp/suds" := d]} true now ∅ "/tmp".

(** ** Vocabulary of the properties *)

Definition is_file (n : node) : bool :=
  match n with File _ _ => true | Dir _ => false end.

(** What [clear] removes: the regular files named with the prefix. *)
Definition cleared (filename : string) (n : node) : bool :=
  String.prefix FileCache.fnprefix filename && is_file n.

(** The folder as [clear] leaves it. *)
Definition clear_folder (d : gmap string node) : gmap string node :=
  filter (λ kn, cleared kn.1 kn.2 = false) d.

(** The world with the content of one folder replaced. *)
Definition with_folder (loc : string) (d : gmap string node) (w : world) : world :=
  set_dirs (<[loc := d]> (dirs w)) w.

(** One round of the loop of [clear], on the content of the folder. *)
Definition clear_entry (d : gmap string node) (filename : string)
  : gmap string node :=
  match d !! filename with
  | Some n => if cleared filename n then delete filename d else d
  | None => d
  end.

(** The body of the loop of [clear]. *)
Definition clear_body (self : file_cache) : string → M unit :=
  λ filename : string,
    let path := os_path_join (location self) filename in
    d ← os_path_isdir path;
    if (d : bool) then ret tt
    else if String.prefix FileCache.fnprefix filename then os_remove path
    else ret tt.

(** The world as [__mktmp] leaves it. *)
Definition mktmp_world (self : file_cache) (w : world) : world :=
  match dirs w !! location self with
  | Some _ => w
  | None => if mkdir_ok w
            then set_dirs (<[location self := ∅]> (dirs w)) w
            else w
  end.

(** Actions that only look at the world. *)
Definition stable {A} (m : M A) : Prop := ∀ w, (m w).2 = w.

(** The version marker calls for a clean-up: it is missing, or a file that
    holds another string, or a file that cannot be read. *)
Definition stale_marker `{Imports} (n : option node) : Prop :=
  match n with
  | None => True
  | Some (File c _) => c ≠ Bytes suds___version__
  | Some (Dir _) => False
  end.

(** What [get] of the two subclasses returns for the content of an entry:
    the decoded object, or nothing. *)
Definition decode `{Imports} (cls : cache_class) (c : content) : option object :=
  match c with
  | Bytes b =>
      match cls with
      | FileCacheClass => Some (PyStr b)
      | DocumentCacheClass => Parser_parse b
      | ObjectCacheClass => pickle_load b
      end
  | Damaged => None
  end.

(** The expiry check lets an entry created at [t] through at time [now]:
    the cache never expires, or its duration is one [timedelta] takes, the
    dates fit [datetime] and the time is not up. *)
Definition passes_expiry_check (self : file_cache) (t now : Z) : Prop :=
  (duration self).2 < 1
  ∨ ∃ u k, (duration self).1 = Some u
      ∧ timedelta_keyword u = Some k
      ∧ (duration self).2 * k ≤ timedelta_max
      ∧ datetime_min ≤ t
      ∧ t + (duration self).2 * k ≤ datetime_max
      ∧ now ≤ t + (duration self).2 * k.

(** A name that the file system takes as the name of one file of a folder:
    it has no separator and no null character, and at most 255 bytes. *)
Definition file_name_ok (s : string) : bool :=
  forallb (λ c, negb (Ascii.eqb c "/"%char) && negb (Ascii.eqb c Ascii.zero))
    (String.list_ascii_of_string s)
  && (String.length s <=? 255)%nat.

(** A path that the file system resolves to an entry of its folder: the
    name is such a name, and the whole is at most 4095 bytes. *)
Definition path_ok (p : path) : bool :=
  file_name_ok (base p)
  && (String.length (folder p) + 1 + String.length (base p) <=? 4095)%nat.

(** An id is safe for a cache when the path of its entry is such a path:
    the entry is then one file of the folder of the cache. *)
Definition safe_id (self : file_cache) (id : string) : Prop :=
  path_ok (FileCache.__filename self id) = true.

(** Two states of the environment that differ at most by the entry [p]
    (and by the file objects that are open): they have the same folders, every
    other path holds the same in both, and the clock, the temporary directory
    and the ability to create folders are the same. *)
Definition same_but (p : path) (w w' : world) : Prop :=
  (∀ loc, is_Some (dirs w' !! loc) ↔ is_Some (dirs w !! loc))
  ∧ (∀ q, q ≠ p → lookup_path q w' = lookup_path q w)
  ∧ mkdir_ok w' = mkdir_ok w
  ∧ clock w' = clock w
  ∧ tempdir w' = tempdir w.

(** What an operation of the cache [self] on the entry [p] may change in
    the file system, going from [w] to [w']: the entry [p], after the folder
    of the cache was created as [__mktmp] does, or not. *)
Definition changes_entry_only (self : file_cache) (p : path) (w w' : world)
  : Prop :=
  same_but p w w' ∨ same_but p (mktmp_world self w) w'.

(** An action of the cache [self] changes nothing but the entry [p]. *)
Definition touches_only {A} (self : file_cache) (p : path) (m : M A) : Prop :=
  ∀ w, changes_entry_only self p w (m w).2.

(** The folder of the examples: two entries, a sub-directory, a file of
    another program and the marker of an older version. *)
Definition sample_folder : gmap string node :=
  {[ "suds-a.gcf" := File (Bytes "x") 0;
     "suds-b.px" := File (Bytes "T.") 0;
     "suds-d" := Dir 0;
     "notes.txt" := File (Bytes "n") 0;
     "version" := File (Bytes "0.3.9") 0 ]}.

(** * Properties *)

Ltac unfold_monad :=
  unfold mbind, M_bind, bind, ret, raise, try_except, try_finally.

(** Projections of worlds, paths and file objects given by constructors. *)
Ltac record_simpl :=
  cbn [dirs opened clock mkdir_ok tempdir set_dirs set_opened set_clock
       folder base fileno name fmode snapshot os_path_join fst snd] in *.

Section Environment.

Lemma set_dirs_id w : set_dirs (dirs w) w = w.
Proof. by destruct w. Qed.

Lemma set_opened_id w : set_opened (opened w) w = w.
Proof. by destruct w. Qed.

Lemma fresh_closed (o : gset nat) : ({[fresh o]} ∪ o) ∖ {[fresh o]} = o.
Proof.
  pose proof (is_fresh o) as Hf. apply set_eq. intros x.
  rewrite elem_of_difference, elem_of_union, !elem_of_singleton. split.
  - by intros [[->|Hx] Hne].
  - intros Hx. split; [by right|]. by intros ->.
Qed.

Lemma lookup_update_path_eq p n w :
  is_Some (dirs w !! folder p) → lookup_path p (update_path p n w) = n.
Proof.
  intros [d Hd]. unfold lookup_path, update_path. rewrite Hd. simpl.
  rewrite lookup_insert_eq. destruct n; [apply lookup_insert_eq | apply lookup_delete_eq].
Qed.

Lemma lookup_update_path_ne p q n w :
  p ≠ q → lookup_path q (update_path p n w) = lookup_path q w.
Proof.
  intros Hne. unfold lookup_path, update_path.
  destruct (dirs w !! folder p) as [d|] eqn:Hd; [|done]. simpl.
  destruct (decide (folder p = folder q)) as [Hf|Hf].
  - rewrite <- Hf, lookup_insert_eq, Hd.
    assert (base p ≠ base q) by (destruct p, q; simpl in *; congruence).
    destruct n; [by rewrite lookup_insert_ne | by rewrite lookup_delete_ne].
  - by rewrite lookup_insert_ne.
Qed.

End Environment.

(** ** FileCache.clear *)

Section Clear.

Lemma with_folder_id loc d w : dirs w !! loc = Some d → with_folder loc d w = w.
Proof.
  intros Hd. unfold with_folder. rewrite insert_id by done. apply set_dirs_id.
Qed.

Lemma with_folder_twice loc d d' w :
  with_folder loc d (with_folder loc d' w) = with_folder loc d w.
Proof. unfold with_folder. destruct w; simpl. by rewrite insert_insert_eq. Qed.

Lemma dirs_with_folder loc d w : dirs (with_folder loc d w) !! loc = Some d.
Proof. unfold with_folder. destruct w; simpl. apply lookup_insert_eq. Qed.

Lemma clear_body_step self f d w n :
  dirs w !! location self = Some d →
  d !! f = Some n →
  clear_body self f w
  = (Return tt, with_folder (location self) (clear_entry d f) w).
Proof.
  intros Hd Hn. unfold clear_body. unfold_monad.
  unfold os_path_isdir, os_remove, lookup_path, os_path_join.
  cbn [folder base]. rewrite Hd, Hn.
  unfold clear_entry. rewrite Hn. unfold cleared.
  destruct n as [c t|t]; cbn [is_file].
  - destruct (String.prefix FileCache.fnprefix f); cbn [andb].
    + unfold update_path. cbn [folder base]. by rewrite Hd, Hn.
    + by rewrite with_folder_id.
  - rewrite andb_false_r. by rewrite with_folder_id.
Qed.

Lemma clear_loop self filenames : ∀ d w,
  dirs w !! location self = Some d →
  NoDup filenames →
  (∀ f, f ∈ filenames → is_Some (d !! f)) →
  for_each filenames (clear_body self) w
  = (Return tt, with_folder (location self) (foldl clear_entry d filenames) w).
Proof.
  induction filenames as [|f fs IH]; intros d w Hd Hnd Hin.
  - simpl. by rewrite with_folder_id.
  - apply NoDup_cons in Hnd as [Hf Hnd].
    destruct (Hin f) as [n Hn]; [by left|].
    cbn [for_each foldl]. unfold mbind, M_bind, bind.
    rewrite (clear_body_step self f d w n Hd Hn).
    rewrite IH with (d := clear_entry d f).
    + by rewrite with_folder_twice.
    + apply dirs_with_folder.
    + done.
    + intros g Hg. unfold clear_entry. rewrite Hn.
      destruct (cleared f n); [|by apply Hin; right].
      rewrite lookup_delete_ne; [by apply Hin; right|]. by intros ->.
Qed.

Lemma lookup_foldl_clear_entry filenames : ∀ d k,
  foldl clear_entry d filenames !! k =
    match d !! k with
    | Some n => if bool_decide (k ∈ filenames) && cleared k n then None else Some n
    | None => None
    end.
Proof.
  induction filenames as [|f fs IH]; intros d k; cbn [foldl].
  - destruct (d !! k); [|done].
    by rewrite bool_decide_eq_false_2 by apply not_elem_of_nil.
  - rewrite IH. unfold clear_entry.
    destruct (decide (k = f)) as [->|Hne].
    + rewrite (bool_decide_eq_true_2 (f ∈ f :: fs)) by apply list_elem_of_here.
      destruct (d !! f) as [n|] eqn:Hn; [|by rewrite Hn].
      destruct (cleared f n) eqn:Hc.
      * by rewrite lookup_delete_eq.
      * rewrite Hn, Hc. by rewrite andb_false_r.
    + assert (bool_decide (k ∈ f :: fs) = bool_decide (k ∈ fs)) as ->.
      { apply bool_decide_ext. rewrite elem_of_cons.
        split; [by intros [?|?] | by right]. }
      destruct (d !! f) as [n|] eqn:Hn; [|done].
      destruct (cleared f n); [|done]. by rewrite lookup_delete_ne.
Qed.

Lemma foldl_clear_entry_all (d : gmap string node) :
  foldl clear_entry d (map_to_list d).*1 = clear_folder d.
Proof.
  apply map_eq. intros k. rewrite lookup_foldl_clear_entry.
  unfold clear_folder. rewrite map_lookup_filter.
  destruct (d !! k) as [n|] eqn:Hn; [|done]. cbn.
  assert (k ∈ (map_to_list d).*1) as Hk.
  { apply list_elem_of_fmap. exists (k, n). split; [done|].
    by apply elem_of_map_to_list. }
  rewrite bool_decide_eq_true_2 by done. cbn.
  destruct (cleared k n); by simplify_option_eq.
Qed.

(** [clear] on a folder that exists. *)
Lemma clear_exact self w d :
  dirs w !! location self = Some d →
  FileCache.clear self w
  = (Return tt, with_folder (location self) (clear_folder d) w).
Proof.
  intros Hd. unfold FileCache.clear. fold (clear_body self).
  unfold os_listdir. unfold_monad. rewrite Hd.
  rewrite (clear_loop self _ d w Hd).
  - by rewrite foldl_clear_entry_all.
  - apply NoDup_fst_map_to_list.
  - intros f [[k n] [-> Hkn]]%list_elem_of_fmap.
    apply elem_of_map_to_list in Hkn. by eexists.
Qed.

(** [clear] on a folder that does not exist. *)
Lemma clear_missing self w :
  dirs w !! location self = None →
  FileCache.clear self w = (Raise OSError, w).
Proof.
  intros Hd. unfold FileCache.clear, os_listdir. unfold_monad. by rewrite Hd.
Qed.

Lemma lookup_clear_folder d filename :
  clear_folder d !! filename =
    match d !! filename with
    | Some n => if cleared filename n then None else Some n
    | None => None
    end.
Proof.
  unfold clear_folder. rewrite map_lookup_filter.
  destruct (d !! filename) as [n|]; [|done]. cbn.
  destruct (cleared filename n); by simplify_option_eq.
Qed.

End Clear.

(** ** FileCache: opening and reading an entry *)

Section Reading.

Context `{Imports}.

(** [__mktmp] never raises, and creates at most an empty folder. *)
Lemma mktmp_exact self w :
  FileCache.__mktmp self w = (Return tt, mktmp_world self w).
Proof.
  unfold FileCache.__mktmp, mktmp_world, os_path_isdir_folder, os_makedirs.
  unfold_monad. destruct (dirs w !! location self) as [d|] eqn:Hd.
  - by rewrite bool_decide_eq_true_2.
  - rewrite bool_decide_eq_false_2 by (by intros [??]).
    cbn [negb]. rewrite Hd. by destruct (mkdir_ok w).
Qed.

Lemma mktmp_world_exists self w :
  is_Some (dirs w !! location self) → mktmp_world self w = w.
Proof. intros [d Hd]. unfold mktmp_world. by rewrite Hd. Qed.

Lemma opened_mktmp_world self w : opened (mktmp_world self w) = opened w.
Proof. unfold mktmp_world. by repeat case_match. Qed.

Lemma clock_mktmp_world self w : clock (mktmp_world self w) = clock w.
Proof. unfold mktmp_world. by repeat case_match. Qed.

Lemma lookup_mktmp_world self p w :
  lookup_path p (mktmp_world self w) = lookup_path p w.
Proof.
  unfold mktmp_world. destruct (dirs w !! location self) as [d|] eqn:Hd; [done|].
  destruct (mkdir_ok w); [|done]. unfold lookup_path. destruct w; cbn in *.
  destruct (decide (folder p = location self)) as [->|Hne].
  - by rewrite lookup_insert_eq, Hd.
  - by rewrite lookup_insert_ne.
Qed.

Lemma opened_update_path p n w : opened (update_path p n w) = opened w.
Proof. unfold update_path. by destruct (dirs w !! folder p), w. Qed.

Lemma clock_update_path p n w : clock (update_path p n w) = clock w.
Proof. unfold update_path. by destruct (dirs w !! folder p), w. Qed.

Lemma lookup_update_path_None p w : lookup_path p (update_path p None w) = None.
Proof.
  unfold lookup_path, update_path.
  destruct (dirs w !! folder p) as [d|] eqn:Hd; cbn.
  - by rewrite lookup_insert_eq, lookup_delete_eq.
  - by rewrite Hd.
Qed.

Lemma lookup_path_folder p w :
  is_Some (lookup_path p w) → is_Some (dirs w !! folder p).
Proof.
  unfold lookup_path. destruct (dirs w !! folder p); [eauto | by intros [??]].
Qed.

Lemma folder_update_path p n w :
  is_Some (dirs w !! folder p) → is_Some (dirs (update_path p n w) !! folder p).
Proof.
  intros [d Hd]. unfold update_path. rewrite Hd. destruct w; cbn.
  rewrite lookup_insert_eq. eauto.
Qed.

Lemma open_read_fails p w :
  (∀ c t, lookup_path p w ≠ Some (File c t)) →
  open_ p ModeRead w = (Raise IOError, w).
Proof.
  intros Hp. unfold open_. destruct (lookup_path p w) as [[c t|t]|]; try done.
  by destruct (Hp c t).
Qed.

Lemma open_read_file p w c t :
  lookup_path p w = Some (File c t) →
  open_ p ModeRead w
  = (Return (FileObject (fresh (opened w)) p ModeRead c),
     set_opened ({[fresh (opened w)]} ∪ opened w) w).
Proof. intros Hp. unfold open_. by rewrite Hp. Qed.

Lemma bind_stable {A B} (m : M A) (k : A → M B) w :
  stable m →
  (∃ e, bind m k w = (Raise e, w)) ∨ (∃ a, bind m k w = k a w).
Proof.
  intros Hm. unfold bind. specialize (Hm w).
  destruct (m w) as [[a|e] w']; cbn in Hm; subst; eauto.
Qed.

Lemma stable_getctime p : stable (os_path_getctime p).
Proof. intros w. unfold os_path_getctime. by repeat case_match. Qed.

Lemma stable_fromtimestamp t : stable (datetime_fromtimestamp t).
Proof. intros w. unfold datetime_fromtimestamp. by case_match. Qed.

Lemma stable_timedelta u v : stable (timedelta u v).
Proof. intros w. unfold timedelta. by repeat case_match. Qed.

Lemma stable_datetime_add c d : stable (datetime_add c d).
Proof. intros w. unfold datetime_add. by case_match. Qed.

Lemma stable_now : stable datetime_now.
Proof. by intros w. Qed.

Create HintDb stable.
#[local] Hint Resolve stable_getctime stable_fromtimestamp stable_timedelta
  stable_datetime_add stable_now : stable.

(** Runs the first action of a sequence, when it is a stable one. *)
Ltac peel_stable :=
  match goal with
  | |- context [bind ?m ?k ?w] =>
      let Hs := fresh "Hs" in
      assert (stable m) as Hs by auto with stable;
      destruct (bind_stable m k w Hs) as [[? ->]|[? ->]]; clear Hs
  end.

(** [__remove_if_expired] changes nothing, unless it removes the file. *)
Lemma remove_if_expired_cases self p w :
  (∃ r, FileCache.__remove_if_expired self p w = (r, w))
  ∨ (∃ c t, lookup_path p w = Some (File c t)
       ∧ FileCache.__remove_if_expired self p w
         = (Return tt, update_path p None w)).
Proof.
  unfold FileCache.__remove_if_expired.
  destruct ((duration self).2 <? 1); [left; by eexists|].
  unfold mbind, M_bind.
  do 5 (peel_stable; [left; eauto|]).
  case_match; [|left; by eexists].
  unfold os_remove. destruct (lookup_path p w) as [[c t'|t']|] eqn:Hp; eauto.
Qed.

(** [_getf] never raises: it returns [None], or a file object on the
    entry, which is then a regular file, and the entry is untouched. *)
Lemma getf_cases self id w :
  let p := FileCache.__filename self id in
  (∃ w', FileCache._getf self id w = (Return None, w')
     ∧ opened w' = opened w ∧ clock w' = clock w
     ∧ (lookup_path p w' = lookup_path p w ∨ lookup_path p w' = None))
  ∨ (∃ c t, lookup_path p w = Some (File c t)
       ∧ FileCache._getf self id w
         = (Return (Some (FileObject (fresh (opened w)) p ModeRead c)),
            set_opened ({[fresh (opened w)]} ∪ opened w) w)).
Proof.
  intros p. unfold FileCache._getf. fold p.
  assert (folder p = location self) as Hf by done.
  unfold try_except, mbind, M_bind, bind.
  destruct (remove_if_expired_cases self p w) as [[r ->]|(c & t & Hp & ->)].
  - destruct r as [[]|e]; [|left; exists w; by eauto].
    unfold FileCache.__open, mbind, M_bind, bind. rewrite mktmp_exact.
    destruct (lookup_path p w) as [[c t|t]|] eqn:Hp.
    + right. exists c, t. split; [done|].
      rewrite mktmp_world_exists
        by (rewrite <- Hf; apply lookup_path_folder; by rewrite Hp).
      by rewrite (open_read_file p w c t Hp).
    + left. eexists. rewrite open_read_fails
        by (intros ??; by rewrite lookup_mktmp_world, Hp).
      rewrite opened_mktmp_world, clock_mktmp_world, lookup_mktmp_world. eauto.
    + left. eexists. rewrite open_read_fails
        by (intros ??; by rewrite lookup_mktmp_world, Hp).
      rewrite opened_mktmp_world, clock_mktmp_world, lookup_mktmp_world. eauto.
  - left. unfold FileCache.__open, mbind, M_bind, bind. rewrite mktmp_exact.
    rewrite mktmp_world_exists.
    2:{ rewrite <- Hf. apply folder_update_path, lookup_path_folder.
        by rewrite Hp. }
    rewrite open_read_fails by (intros ??; by rewrite lookup_update_path_None).
    eexists. split; [done|].
    rewrite opened_update_path, clock_update_path, lookup_update_path_None. eauto.
Qed.

Lemma close_after_open f w :
  let w1 := set_opened ({[fresh (opened w)]} ∪ opened w) w in
  fileno f = fresh (opened w) →
  file_close (Some f) w1 = (Return tt, w).
Proof.
  intros w1 Hf. unfold file_close, w1. rewrite Hf. destruct w; cbn.
  by rewrite fresh_closed.
Qed.

(** Closing a file object that is closed already changes nothing. *)
Lemma close_closed f w :
  fileno f = fresh (opened w) →
  file_close (Some f) w = (Return tt, w).
Proof.
  intros Hf. unfold file_close. rewrite Hf.
  assert (opened w ∖ {[fresh (opened w)]} = opened w) as ->; [|by destruct w].
  pose proof (is_fresh (opened w)) as Hn. apply set_eq. intros x.
  rewrite elem_of_difference, elem_of_singleton. split; [by intros [? _]|].
  intros Hx. split; [done|]. by intros ->.
Qed.

(** [get] never raises: it returns [None], or the bytes of the entry,
    and leaves no file object open. *)
Lemma get_cases self id w :
  let p := FileCache.__filename self id in
  (∃ w', FileCache.get self id w = (Return PyNone, w')
     ∧ opened w' = opened w ∧ clock w' = clock w
     ∧ (lookup_path p w' = lookup_path p w ∨ lookup_path p w' = None))
  ∨ (∃ b t, lookup_path p w = Some (File (Bytes b) t)
       ∧ FileCache.get self id w = (Return (PyStr b), w)).
Proof.
  intros p. unfold FileCache.get, try_except, mbind, M_bind, bind.
  destruct (getf_cases self id w)
    as [(w' & -> & Ho & Hc & Hl)|(c & t & Hp & ->)].
  - left. exists w'. by cbn.
  - unfold try_finally. destruct c as [b|]; cbn [file_read fmode snapshot].
    + right. exists b, t. split; [done|]. unfold ret.
      by rewrite close_after_open.
    + left. exists w. unfold raise. rewrite close_after_open by done. eauto.
Qed.

(** [_getf], by what the expiry check does. *)
Lemma getf_check_raises self id w e :
  FileCache.__remove_if_expired self (FileCache.__filename self id) w
    = (Raise e, w) →
  FileCache._getf self id w = (Return None, w).
Proof.
  intros Hr. unfold FileCache._getf, try_except, mbind, M_bind, bind.
  by rewrite Hr.
Qed.

Lemma getf_unexpired self id w c t :
  let p := FileCache.__filename self id in
  FileCache.__remove_if_expired self p w = (Return tt, w) →
  lookup_path p w = Some (File c t) →
  FileCache._getf self id w
  = (Return (Some (FileObject (fresh (opened w)) p ModeRead c)),
     set_opened ({[fresh (opened w)]} ∪ opened w) w).
Proof.
  intros p Hr Hp. unfold FileCache._getf, try_except, mbind, M_bind, bind.
  fold p. rewrite Hr. unfold FileCache.__open, mbind, M_bind, bind.
  rewrite mktmp_exact, mktmp_world_exists.
  - by rewrite (open_read_file p w c t Hp).
  - change (location self) with (folder p). apply lookup_path_folder.
    by rewrite Hp.
Qed.

Lemma getf_expired self id w c t :
  let p := FileCache.__filename self id in
  FileCache.__remove_if_expired self p w = (Return tt, update_path p None w) →
  lookup_path p w = Some (File c t) →
  FileCache._getf self id w = (Return None, update_path p None w).
Proof.
  intros p Hr Hp. unfold FileCache._getf, try_except, mbind, M_bind, bind.
  fold p. rewrite Hr. unfold FileCache.__open, mbind, M_bind, bind.
  rewrite mktmp_exact, mktmp_world_exists.
  - by rewrite open_read_fails by (intros ??; by rewrite lookup_update_path_None).
  - change (location self) with (folder p).
    apply folder_update_path, lookup_path_folder. by rewrite Hp.
Qed.

Lemma getf_not_a_file self id w :
  let p := FileCache.__filename self id in
  (∀ c t, lookup_path p w ≠ Some (File c t)) →
  FileCache._getf self id w = (Return None, mktmp_world self w)
  ∨ FileCache._getf self id w = (Return None, w).
Proof.
  intros p Hp. unfold FileCache._getf, try_except, mbind, M_bind, bind. fold p.
  destruct (remove_if_expired_cases self p w) as [[r ->]|(c & t & Hp' & _)];
    [|by destruct (Hp c t)].
  destruct r as [[]|e]; [|by right]. left.
  unfold FileCache.__open, mbind, M_bind, bind. rewrite mktmp_exact.
  by rewrite open_read_fails by (intros ??; by rewrite lookup_mktmp_world).
Qed.

(** [get], by what the expiry check does. *)
Lemma get_check_raises self id w e :
  FileCache.__remove_if_expired self (FileCache.__filename self id) w
    = (Raise e, w) →
  FileCache.get self id w = (Return PyNone, w).
Proof.
  intros Hr. unfold FileCache.get, try_except, mbind, M_bind, bind.
  by rewrite (getf_check_raises self id w e Hr).
Qed.

Lemma get_unexpired self id w b t :
  let p := FileCache.__filename self id in
  FileCache.__remove_if_expired self p w = (Return tt, w) →
  lookup_path p w = Some (File (Bytes b) t) →
  FileCache.get self id w = (Return (PyStr b), w).
Proof.
  intros p Hr Hp. unfold FileCache.get, try_except, mbind, M_bind, bind.
  rewrite (getf_unexpired self id w _ t Hr Hp).
  unfold try_finally. cbn [file_read fmode snapshot]. unfold ret.
  by rewrite close_after_open.
Qed.

Lemma get_expired self id w c t :
  let p := FileCache.__filename self id in
  FileCache.__remove_if_expired self p w = (Return tt, update_path p None w) →
  lookup_path p w = Some (File c t) →
  FileCache.get self id w = (Return PyNone, update_path p None w).
Proof.
  intros p Hr Hp. unfold FileCache.get, try_except, mbind, M_bind, bind.
  by rewrite (getf_expired self id w c t Hr Hp).
Qed.

(** The expiry check on an entry, when the duration is one that
    [timedelta] takes and the dates stay within [datetime]. *)
Lemma remove_if_expired_exact self p w c t n u k :
  duration self = (Some u, n) →
  1 ≤ n →
  timedelta_keyword u = Some k →
  timedelta_min ≤ n * k ≤ timedelta_max →
  lookup_path p w = Some (File c t) →
  datetime_min ≤ t ≤ datetime_max →
  datetime_min ≤ t + n * k ≤ datetime_max →
  FileCache.__remove_if_expired self p w
  = (Return tt, if t + n * k <? clock w then update_path p None w else w).
Proof.
  intros Hd Hn Hk Hdelta Hp Hct Hsum. unfold FileCache.__remove_if_expired.
  rewrite Hd. cbn [fst snd]. rewrite (proj2 (Z.ltb_ge n 1)) by lia.
  unfold os_path_getctime, datetime_fromtimestamp, timedelta, datetime_add,
    datetime_now, os_remove. unfold_monad. rewrite Hp, Hk.
  assert ((datetime_min <=? t) && (t <=? datetime_max) = true) as ->
    by (apply andb_true_iff; split; apply Z.leb_le; lia).
  assert ((timedelta_min <=? n * k) && (n * k <=? timedelta_max) = true) as ->
    by (apply andb_true_iff; split; apply Z.leb_le; lia).
  assert ((datetime_min <=? t + n * k) && (t + n * k <=? datetime_max) = true)
    as -> by (apply andb_true_iff; split; apply Z.leb_le; lia).
  destruct (_ <? clock w); [by rewrite Hp | done].
Qed.

End Reading.

(** ** FileCache: writing and removing an entry *)

Section Writing.

Context `{Imports}.

Lemma open_write_cases p w :
  open_ p ModeWrite w = (Raise IOError, w)
  ∨ open_ p ModeWrite w
    = (Return (FileObject (fresh (opened w)) p ModeWrite (Bytes "")),
       set_opened ({[fresh (opened w)]} ∪ opened w)
         (update_path p (Some (File (Bytes "") (clock w))) w)).
Proof.
  unfold open_, lookup_path.
  destruct (dirs w !! folder p) as [d|]; [|by left].
  destruct (d !! base p) as [[c t|t]|]; eauto.
Qed.

Lemma open_write_ok p w d :
  dirs w !! folder p = Some d →
  (∀ t, d !! base p ≠ Some (Dir t)) →
  open_ p ModeWrite w
  = (Return (FileObject (fresh (opened w)) p ModeWrite (Bytes "")),
     set_opened ({[fresh (opened w)]} ∪ opened w)
       (update_path p (Some (File (Bytes "") (clock w))) w)).
Proof.
  intros Hd Hn. unfold open_, lookup_path. rewrite Hd.
  destruct (d !! base p) as [[c t|t]|] eqn:Hb; try done. by destruct (Hn t).
Qed.

Lemma file_write_opened f data w :
  opened (file_write f data w).2 = opened w.
Proof.
  unfold file_write. destruct (fmode f), (bytes_of data); try done.
  repeat case_match; try done. cbn. apply opened_update_path.
Qed.

(** [put] returns its argument, whatever happens, and leaves no file
    object open. *)
Lemma put_returns self id data w :
  ∃ w', FileCache.put self id data w = (Return data, w')
    ∧ opened w' = opened w.
Proof.
  unfold FileCache.put, FileCache.__open, try_except, try_finally.
  unfold mbind, M_bind, bind. rewrite mktmp_exact.
  destruct (open_write_cases (FileCache.__filename self id) (mktmp_world self w))
    as [->| ->].
  - eexists. split; [done|]. apply opened_mktmp_world.
  - pose proof (file_write_opened
      (FileObject (fresh (opened (mktmp_world self w)))
         (FileCache.__filename self id) ModeWrite (Bytes "")) data
      (set_opened ({[fresh (opened (mktmp_world self w))]}
                    ∪ opened (mktmp_world self w))
         (update_path (FileCache.__filename self id)
            (Some (File (Bytes "") (clock (mktmp_world self w))))
            (mktmp_world self w)))) as Ho.
    destruct (file_write _ data _) as [r w2]. cbn in Ho.
    unfold file_close. cbn [fileno]. rewrite Ho.
    assert (opened (set_opened
              (({[fresh (opened (mktmp_world self w))]}
                  ∪ opened (mktmp_world self w))
                ∖ {[fresh (opened (mktmp_world self w))]}) w2) = opened w) as Hw.
    { destruct w2; cbn. by rewrite fresh_closed, opened_mktmp_world. }
    destruct r as [[]|e]; cbn; eauto.
Qed.

(** Opening a path of the folder for writing, when it can be written. *)
Lemma open_write_exact self p w d :
  folder p = location self →
  dirs (mktmp_world self w) !! location self = Some d →
  (∀ t, d !! base p ≠ Some (Dir t)) →
  FileCache.__open self p ModeWrite w
  = (Return (FileObject (fresh (opened w)) p ModeWrite (Bytes "")),
     set_opened ({[fresh (opened w)]} ∪ opened w)
       (with_folder (location self) (<[base p := File (Bytes "") (clock w)]> d)
          (mktmp_world self w))).
Proof.
  intros Hf Hd Hn. unfold FileCache.__open.
  unfold mbind, M_bind, bind. rewrite mktmp_exact.
  rewrite <- Hf in Hd. rewrite (open_write_ok p _ d Hd Hn).
  rewrite opened_mktmp_world, clock_mktmp_world.
  unfold update_path, with_folder. by rewrite Hd, Hf.
Qed.

(** Writing bytes to the file just opened, and closing it. *)
Lemma write_close_bytes p data b w d t :
  bytes_of data = Some b →
  let f := FileObject (fresh (opened w)) p ModeWrite (Bytes "") in
  try_finally (file_write f data) (file_close (Some f))
    (set_opened ({[fresh (opened w)]} ∪ opened w)
       (with_folder (folder p) (<[base p := File (Bytes "") t]> d) w))
  = (Return tt,
     with_folder (folder p) (<[base p := File (Bytes b) (clock w)]> d) w).
Proof.
  intros Hb f. unfold try_finally, file_write, file_close, lookup_path,
    update_path, with_folder.
  destruct w as [ds mk clk o tmp]. destruct p as [loc filename].
  subst f. record_simpl. rewrite Hb. record_simpl.
  rewrite !lookup_insert_eq. record_simpl. rewrite ?lookup_insert_eq.
  record_simpl. by rewrite !insert_insert_eq, fresh_closed.
Qed.

(** Writing a byte string to the file just opened, and closing it. *)
Lemma write_close_exact p b w d t :
  let f := FileObject (fresh (opened w)) p ModeWrite (Bytes "") in
  try_finally (file_write f (PyStr b)) (file_close (Some f))
    (set_opened ({[fresh (opened w)]} ∪ opened w)
       (with_folder (folder p) (<[base p := File (Bytes "") t]> d) w))
  = (Return tt,
     with_folder (folder p) (<[base p := File (Bytes b) (clock w)]> d) w).
Proof. by apply write_close_bytes. Qed.

(** [put] of a value that [write] takes, when the entry can be written. *)
Lemma put_bytes self id data b w d :
  let p := FileCache.__filename self id in
  bytes_of data = Some b →
  dirs (mktmp_world self w) !! location self = Some d →
  (∀ t, d !! base p ≠ Some (Dir t)) →
  FileCache.put self id data w
  = (Return data,
     with_folder (location self) (<[base p := File (Bytes b) (clock w)]> d)
       (mktmp_world self w)).
Proof.
  intros p Hb Hd Hn. unfold FileCache.put, try_except. fold p.
  unfold mbind, M_bind, bind.
  rewrite (open_write_exact self p w d eq_refl Hd Hn).
  rewrite <- (opened_mktmp_world self w), <- (clock_mktmp_world self w).
  change (location self) with (folder p).
  by rewrite (write_close_bytes p data b (mktmp_world self w) d _ Hb).
Qed.

(** [put] of a byte string, when the entry can be written. *)
Lemma put_exact self id b w d :
  let p := FileCache.__filename self id in
  dirs (mktmp_world self w) !! location self = Some d →
  (∀ t, d !! base p ≠ Some (Dir t)) →
  FileCache.put self id (PyStr b) w
  = (Return (PyStr b),
     with_folder (location self) (<[base p := File (Bytes b) (clock w)]> d)
       (mktmp_world self w)).
Proof. intros p. by apply put_bytes. Qed.

(** [purge] never raises; it removes the entry when it is a file. *)
Lemma purge_exact self id w :
  let p := FileCache.__filename self id in
  FileCache.purge self id w
  = (Return tt, match lookup_path p w with
                | Some (File _ _) => update_path p None w
                | _ => w
                end).
Proof.
  intros p. unfold FileCache.purge, try_except, os_remove. fold p.
  by destruct (lookup_path p w) as [[c t|t]|].
Qed.

End Writing.

(** ** FileCache: construction *)

Section Construction.

Context `{Imports}.

Lemma cleared_version n : cleared "version" n = false.
Proof. done. Qed.

(** Reading a stale marker raises, and leaves the world as it was. *)
Lemma read_stale_marker self w d :
  dirs w !! location self = Some d →
  stale_marker (d !! "version") →
  let path := os_path_join (location self) "version" in
  ∃ e, (f ← FileCache.__open self path ModeRead;
        version ← try_finally (file_read (Some f)) (file_close (Some f));
        match version with
        | PyStr v => if String.eqb v suds___version__ then ret tt
                     else raise (Exception "")
        | _ => raise (Exception "")
        end) w = (Raise e, w).
Proof.
  intros Hd Hs path. unfold FileCache.__open, mbind, M_bind, bind.
  rewrite mktmp_exact, mktmp_world_exists by eauto.
  assert (lookup_path path w = d !! "version") as Hl.
  { unfold lookup_path, path. record_simpl. by rewrite Hd. }
  destruct (d !! "version") as [[c t|t]|] eqn:Hv; cbn in Hs.
  - rewrite (open_read_file path w c t Hl). unfold try_finally.
    cbn [file_read fmode snapshot]. destruct c as [v|].
    + unfold ret at 1. rewrite close_after_open by done.
      destruct (String.eqb_spec v suds___version__) as [->|Hne]; [done|].
      by eexists.
    + unfold raise at 1. rewrite close_after_open by done. by eexists.
  - done.
  - rewrite open_read_fails by (intros ??; by rewrite Hl). by eexists.
Qed.

(** The version check on a stale marker: the folder is cleared and the
    marker written. *)
Lemma check_version_stale self w d :
  dirs w !! location self = Some d →
  stale_marker (d !! "version") →
  FileCache.__check_version self w
  = (Return tt,
     with_folder (location self)
       (<["version" := File (Bytes suds___version__) (clock w)]> (clear_folder d))
       w).
Proof.
  intros Hd Hs. unfold FileCache.__check_version, try_except.
  destruct (read_stale_marker self w d Hd Hs) as [e ->].
  unfold mbind, M_bind, bind. rewrite (clear_exact self w d Hd).
  set (w1 := with_folder (location self) (clear_folder d) w).
  assert (dirs w1 !! location self = Some (clear_folder d)) as Hd1
    by apply dirs_with_folder.
  assert (mktmp_world self w1 = w1) as Hm by (apply mktmp_world_exists; eauto).
  rewrite (open_write_exact self _ w1 (clear_folder d)); [|done|by rewrite Hm|].
  - rewrite Hm.
    etrans; [apply (write_close_exact (os_path_join (location self) "version")
                      suds___version__ w1 (clear_folder d) (clock w1))|].
    record_simpl. unfold w1. rewrite with_folder_twice. by destruct w.
  - intros t. record_simpl. rewrite lookup_clear_folder.
    destruct (d !! "version") as [[]|]; cbn in *; congruence.
Qed.

(** The version check when the path of the marker is a directory: the
    folder is cleared, then opening the marker for writing raises. *)
Lemma check_version_marker_is_directory self w d t :
  dirs w !! location self = Some d →
  d !! "version" = Some (Dir t) →
  FileCache.__check_version self w
  = (Raise IOError, with_folder (location self) (clear_folder d) w).
Proof.
  intros Hd Hv. unfold FileCache.__check_version, try_except.
  unfold FileCache.__open, mbind, M_bind, bind.
  rewrite mktmp_exact, mktmp_world_exists by eauto.
  rewrite open_read_fails
    by (intros ??; unfold lookup_path; record_simpl; by rewrite Hd, Hv).
  rewrite (clear_exact self w d Hd).
  rewrite mktmp_exact, mktmp_world_exists
    by (rewrite dirs_with_folder; eauto).
  unfold open_, lookup_path. record_simpl.
  by rewrite dirs_with_folder, lookup_clear_folder, Hv.
Qed.

(** The version check on a marker of the running version: nothing to do. *)
Lemma check_version_current self w d t :
  dirs w !! location self = Some d →
  d !! "version" = Some (File (Bytes suds___version__) t) →
  FileCache.__check_version self w = (Return tt, w).
Proof.
  intros Hd Hv. unfold FileCache.__check_version, try_except.
  unfold FileCache.__open, mbind, M_bind, bind.
  rewrite mktmp_exact, mktmp_world_exists by eauto.
  rewrite (open_read_file _ w (Bytes suds___version__) t)
    by (unfold lookup_path; record_simpl; by rewrite Hd).
  unfold try_finally. cbn [file_read fmode snapshot]. unfold ret at 1.
  rewrite close_after_open by done. by rewrite String.eqb_refl.
Qed.

End Construction.

(** ** DocumentCache and ObjectCache *)

Section Codecs.

Context `{Imports}.

(** [get] of [DocumentCache] on an entry that [_getf] opens: the document
    is returned and the file object is left as the parser leaves it, or the
    entry is purged. *)
Lemma DocumentCache_get_unexpired self id w c t :
  let p := FileCache.__filename self id in
  FileCache.__remove_if_expired self p w = (Return tt, w) →
  lookup_path p w = Some (File c t) →
  DocumentCache.get self id w
  = match decode DocumentCacheClass c with
    | Some doc =>
        (Return doc,
         if Parser_closes then w
         else set_opened ({[fresh (opened w)]} ∪ opened w) w)
    | None => (Return PyNone, update_path p None w)
    end.
Proof.
  intros p Hr Hp. unfold DocumentCache.get, try_except.
  unfold mbind, M_bind, bind. rewrite (getf_unexpired self id w c t Hr Hp).
  unfold DocumentCache.Parser_parse_file, try_finally, mbind, M_bind, bind.
  subst p.
  destruct c as [b|]; cbn [file_read fmode snapshot decode];
    unfold ret, raise; cbn beta iota;
    [destruct (Parser_parse b)|];
    destruct Parser_closes; cbn beta iota;
    rewrite ?close_after_open by done; try done;
    rewrite ?close_after_open, ?close_closed by done;
    by rewrite purge_exact, Hp.
Qed.

(** The same for [ObjectCache]. *)
Lemma ObjectCache_get_unexpired self id w c t :
  let p := FileCache.__filename self id in
  FileCache.__remove_if_expired self p w = (Return tt, w) →
  lookup_path p w = Some (File c t) →
  ObjectCache.get self id w
  = match decode ObjectCacheClass c with
    | Some obj =>
        (Return obj, set_opened ({[fresh (opened w)]} ∪ opened w) w)
    | None => (Return PyNone, update_path p None w)
    end.
Proof.
  intros p Hr Hp. unfold ObjectCache.get, try_except.
  unfold mbind, M_bind, bind. rewrite (getf_unexpired self id w c t Hr Hp).
  unfold ObjectCache.pickle_load_file, mbind, M_bind, bind.
  subst p.
  destruct c as [b|]; cbn [file_read fmode snapshot decode];
    unfold ret, raise; cbn beta iota;
    [destruct (pickle_load b); [done|]|];
    rewrite close_after_open by done; by rewrite purge_exact, Hp.
Qed.

(** When [_getf] returns [None], so do the three [get]. *)
Lemma get_None_of_getf self id w w' :
  FileCache._getf self id w = (Return None, w') →
  FileCache.get self id w = (Return PyNone, w')
  ∧ DocumentCache.get self id w = (Return PyNone, w')
  ∧ ObjectCache.get self id w = (Return PyNone, w').
Proof.
  intros Hg. unfold FileCache.get, DocumentCache.get, ObjectCache.get.
  unfold try_except, mbind, M_bind, bind. by rewrite Hg.
Qed.

(** [put] of the two subclasses. *)
Lemma DocumentCache_put_returns self id obj w :
  ∃ w', DocumentCache.put self id obj w = (Return obj, w')
    ∧ opened w' = opened w.
Proof.
  unfold DocumentCache.put. destruct obj; try by eexists.
  unfold mbind, M_bind, bind.
  destruct (put_returns self id (PyStr (Element_str e)) w) as (w' & -> & Ho).
  by exists w'.
Qed.

Lemma ObjectCache_put_cases self id obj w :
  match pickle_dumps obj with
  | Some data =>
      ∃ w', FileCache.put self id (PyStr data) w = (Return (PyStr data), w')
        ∧ ObjectCache.put self id obj w = (Return obj, w')
  | None => ObjectCache.put self id obj w = (Raise PicklingError, w)
  end.
Proof.
  unfold ObjectCache.put, ObjectCache.pickle_dumps_obj.
  unfold mbind, M_bind, bind. destruct (pickle_dumps obj) as [data|]; [|done].
  unfold ret at 1.
  destruct (put_returns self id (PyStr data) w) as (w' & -> & Ho). by exists w'.
Qed.

End Codecs.

(** ** FileCache: the duration keywords *)

Section Duration.

Context `{Imports}.

Lemma set_duration_several self kw w :
  length kw ≠ 1%nat → FileCache.__set_duration self kw w = (Return self, w).
Proof.
  intros Hl. unfold FileCache.__set_duration.
  by rewrite (proj2 (Nat.eqb_neq _ _) Hl).
Qed.

(** A single keyword that is not a unit is refused. *)
Lemma set_duration_unknown_unit self u v w :
  u ∉ FileCache.units →
  ∃ msg, FileCache.__set_duration self [(u, v)] w = (Raise (Exception msg), w).
Proof.
  intros Hu. unfold FileCache.__set_duration. cbn [length Nat.eqb fst snd].
  rewrite bool_decide_eq_false_2 by done. by eexists.
Qed.

(** A single keyword that is a unit is stored with its value. *)
Lemma set_duration_unit self u v w :
  u ∈ FileCache.units →
  FileCache.__set_duration self [(u, v)] w
  = (Return (Instance_ (class_ self) (location self) (Some u, v)), w).
Proof.
  intros Hu. unfold FileCache.__set_duration. cbn [length Nat.eqb fst snd].
  by rewrite bool_decide_eq_true_2.
Qed.

Lemma set_duration_keeps self kw w self' w' :
  FileCache.__set_duration self kw w = (Return self', w') →
  class_ self' = class_ self ∧ location self' = location self ∧ w' = w.
Proof.
  unfold FileCache.__set_duration.
  destruct (length kw =? 1)%nat; [|by intros [= <- <-]].
  destruct kw as [|arg kw]; [done|].
  destruct (negb _); [done|]. by intros [= <- <-].
Qed.

End Duration.

(** * The claims of the specification *)

Section Claims.

Context `{Imports}.

Lemma prefix_filename self id :
  String.prefix FileCache.fnprefix (base (FileCache.__filename self id)) = true.
Proof. by vm_compute. Qed.

Lemma filename_not_version self id :
  base (FileCache.__filename self id) ≠ "version".
Proof. done. Qed.

(** The expiry check of a cache configured in months always raises. *)
Lemma months_check_raises self p w n :
  duration self = (Some "months", n) →
  1 ≤ n →
  ∃ e, FileCache.__remove_if_expired self p w = (Raise e, w).
Proof.
  intros Hd Hn. unfold FileCache.__remove_if_expired. rewrite Hd. cbn [fst snd].
  rewrite (proj2 (Z.ltb_ge n 1)) by lia.
  unfold os_path_getctime, datetime_fromtimestamp, timedelta. unfold_monad.
  destruct (lookup_path p w) as [[c t|t]|]; [| |by eexists];
    (destruct (_ && _); by eexists).
Qed.

(** C2: [FileCache.get] never raises.  Whatever the id and the state of
    the file system (folder or file missing, entry expired and removed,
    entry that is a directory or cannot be read), it returns: either
    [None], or the bytes of the entry, which is then a readable file. *)
Theorem FileCache_get_never_raises self id w :
  ∃ r w', FileCache.get self id w = (Return r, w')
    ∧ (r = PyNone
       ∨ ∃ b t, lookup_path (FileCache.__filename self id) w
                  = Some (File (Bytes b) t) ∧ r = PyStr b).
Proof.
  destruct (get_cases self id w) as [(w' & -> & _)|(b & t & Hp & ->)].
  - exists PyNone, w'. split; [done|by left].
  - exists (PyStr b), w. split; [done|right; by exists b, t].
Qed.



(** C4 (as amended): with the duration [(seconds, 1)], an entry read
    strictly later than its creation time plus one second is absent, and
    its file is deleted before the read; an entry read at that very instant,
    or before, is present.  (Creation times are dates of [datetime].) *)
Theorem expiry_is_strictly_after_boundary self id w b t :
  duration self = (Some "seconds", 1) →
  lookup_path (FileCache.__filename self id) w = Some (File (Bytes b) t) →
  datetime_min ≤ t →
  t + 1000000 ≤ datetime_max →
  FileCache.get self id w
  = if t + 1000000 <? clock w
    then (Return PyNone, update_path (FileCache.__filename self id) None w)
    else (Return (PyStr b), w).
Proof.
  intros Hd Hp Hmin Hmax.
  pose proof (remove_if_expired_exact self (FileCache.__filename self id) w
                (Bytes b) t 1 "seconds" 1000000 Hd) as Hr.
  rewrite Z.mul_1_l in Hr.
  unfold datetime_min, datetime_max, timedelta_min, timedelta_max in *.
  specialize (Hr ltac:(lia) eq_refl ltac:(lia) Hp ltac:(lia) ltac:(lia)).
  destruct (t + 1000000 <? clock w).
  - by apply get_expired with (c := Bytes b) (t := t).
  - by apply get_unexpired with (t := t).
Qed.

(** C5 (as amended): more than one duration keyword is no error.  The
    keywords are ignored: the construction goes as if none had been given,
    and the cache it returns never expires. *)
Theorem several_durations_are_ignored cls loc kw w :
  (1 < length kw)%nat →
  FileCache.__init__ cls loc kw w = FileCache.__init__ cls loc [] w
  ∧ (∀ self w', FileCache.__init__ cls loc kw w = (Return self, w') →
                duration self = (None, 0)).
Proof.
  intros Hl.
  assert (∀ w0 self, FileCache.__set_duration self kw w0 = (Return self, w0))
    as Hk by (intros; apply set_duration_several; lia).
  assert (FileCache.__init__ cls loc kw w = FileCache.__init__ cls loc [] w)
    as Heq.
  { unfold FileCache.__init__, mbind, M_bind, bind, tempfile_gettempdir.
    destruct loc as [l|]; unfold ret; cbn beta iota; by rewrite !Hk. }
  split; [done|]. intros self w'. rewrite Heq.
  unfold FileCache.__init__, mbind, M_bind, bind, tempfile_gettempdir.
  destruct loc as [l|]; unfold ret; cbn;
    destruct (FileCache.__check_version _ _) as [[[]|e] w1]; try done;
    by intros [= <- <-].
Qed.

(** C6 (as amended): [NoCache.get] reports absent; [NoCache.put] stores
    nothing and returns [None], not its argument; [purge] and [clear] are
    not overridden, they are the ones of [Cache], which raise. *)
Theorem NoCache_methods id (v : object) w :
  NoCache.get id w = (Return PyNone, w)
  ∧ NoCache.put id v w = (Return PyNone, w)
  ∧ NoCache.purge id w = (Raise (Exception "not-implemented"), w)
  ∧ NoCache.clear w = (Raise (Exception "not-implemented"), w).
Proof. done. Qed.

(** C7 (as amended): [put] of [FileCache] and of [DocumentCache] returns
    its argument, whatever fails while the file is opened and written.  So
    does [put] of [ObjectCache] once the object is pickled; when
    [pickle.dumps] raises, [put] raises as well and nothing is stored. *)
Theorem put_returns_unless_pickling_fails self id obj w :
  (∃ w', FileCache.put self id obj w = (Return obj, w'))
  ∧ (∃ w', DocumentCache.put self id obj w = (Return obj, w'))
  ∧ match pickle_dumps obj with
    | Some _ => ∃ w', ObjectCache.put self id obj w = (Return obj, w')
    | None => ObjectCache.put self id obj w = (Raise PicklingError, w)
    end.
Proof.
  split; [|split].
  - destruct (put_returns self id obj w) as (w' & ? & _). eauto.
  - destruct (DocumentCache_put_returns self id obj w) as (w' & ? & _). eauto.
  - pose proof (ObjectCache_put_cases self id obj w) as Hc.
    destruct (pickle_dumps obj); [|done]. destruct Hc as (w' & _ & ?). eauto.
Qed.

(** C9: [clear], on a folder that exists, removes the regular files whose
    name starts with the prefix and nothing else: sub-directories, files
    named otherwise (the version marker is one) and other folders are
    left as they were. *)
Theorem clear_removes_prefixed_files self w d :
  dirs w !! location self = Some d →
  ∃ w',
    FileCache.clear self w = (Return tt, w')
    ∧ (∀ filename,
         lookup_path (Path (location self) filename) w'
         = match d !! filename with
           | Some (File c t) =>
               if String.prefix FileCache.fnprefix filename then None
               else Some (File c t)
           | Some (Dir t) => Some (Dir t)
           | None => None
           end)
    ∧ lookup_path (Path (location self) "version") w' = d !! "version"
    ∧ (∀ loc, loc ≠ location self → dirs w' !! loc = dirs w !! loc)
    ∧ opened w' = opened w.
Proof.
  intros Hd. exists (with_folder (location self) (clear_folder d) w).
  assert (∀ filename,
    lookup_path (Path (location self) filename)
      (with_folder (location self) (clear_folder d) w)
    = match d !! filename with
      | Some n => if cleared filename n then None else Some n
      | None => None
      end) as Hl.
  { intros f. unfold lookup_path. record_simpl.
    by rewrite dirs_with_folder, lookup_clear_folder. }
  split; [by apply clear_exact|]. split; [|split; [|split]].
  - intros f. rewrite Hl. unfold cleared.
    destruct (d !! f) as [[c t|t]|]; [|by rewrite andb_false_r|done].
    by rewrite andb_true_r.
  - rewrite Hl. by destruct (d !! "version").
  - intros loc Hne. unfold with_folder. destruct w; cbn.
    by rewrite lookup_insert_ne.
  - by destruct w.
Qed.

End Claims.

(** ** What holds next to the claims the code breaks *)

Section Support.

Context `{Imports}.

Lemma timedelta_keyword_pos u k : timedelta_keyword u = Some k → 0 < k.
Proof.
  unfold timedelta_keyword. repeat case_match; intros [= <-]; lia.
Qed.

Lemma passes_expiry_check_exact self p w c t :
  passes_expiry_check self t (clock w) →
  lookup_path p w = Some (File c t) →
  FileCache.__remove_if_expired self p w = (Return tt, w).
Proof.
  intros [Hn|(u & k & Hu & Hk & Hd & Hmin & Hmax & Hnow)] Hp.
  - unfold FileCache.__remove_if_expired.
    by rewrite (proj2 (Z.ltb_lt _ _) Hn).
  - destruct (Z.lt_ge_cases (duration self).2 1) as [Hn|Hn].
    { unfold FileCache.__remove_if_expired.
      by rewrite (proj2 (Z.ltb_lt _ _) Hn). }
    pose proof (timedelta_keyword_pos u k Hk) as Hpos.
    destruct (duration self) as [u' n] eqn:Hdur. cbn in *. subst u'.
    rewrite (remove_if_expired_exact self p w c t n u k Hdur); try done.
    + by rewrite (proj2 (Z.ltb_ge _ _) Hnow).
    + unfold timedelta_min. nia.
    + unfold datetime_max in *. nia.
    + unfold datetime_min in *. nia.
Qed.

(** Round trip of [FileCache]: what [put] stored, [get] returns, when the
    entry can be written and the expiry check lets it through. *)
Lemma FileCache_round_trip self id b w d :
  let p := FileCache.__filename self id in
  dirs (mktmp_world self w) !! location self = Some d →
  (∀ t, d !! base p ≠ Some (Dir t)) →
  passes_expiry_check self (clock w) (clock w) →
  ∃ w1, FileCache.put self id (PyStr b) w = (Return (PyStr b), w1)
    ∧ FileCache.get self id w1 = (Return (PyStr b), w1).
Proof.
  intros p Hd Hn He. eexists. split; [by apply put_exact|].
  set (w1 := with_folder _ _ _).
  assert (lookup_path p w1 = Some (File (Bytes b) (clock w))) as Hp.
  { unfold lookup_path, w1, p, FileCache.__filename. record_simpl.
    rewrite dirs_with_folder. apply lookup_insert_eq. }
  assert (clock w1 = clock w) as Hc.
  { unfold w1, with_folder. rewrite <- (clock_mktmp_world self w).
    by destruct (mktmp_world self w). }
  apply get_unexpired with (t := clock w); [|done].
  apply passes_expiry_check_exact with (c := Bytes b) (t := clock w); [|done].
  by rewrite Hc.
Qed.

(** The same for the two subclasses, when the parser reads back what
    [str] wrote and [pickle.load] what [pickle.dumps] wrote. *)
Lemma ObjectCache_round_trip self id obj data w d :
  let p := FileCache.__filename self id in
  pickle_dumps obj = Some data →
  pickle_load data = Some obj →
  dirs (mktmp_world self w) !! location self = Some d →
  (∀ t, d !! base p ≠ Some (Dir t)) →
  passes_expiry_check self (clock w) (clock w) →
  ∃ w1, ObjectCache.put self id obj w = (Return obj, w1)
    ∧ (ObjectCache.get self id w1).1 = Return obj.
Proof.
  intros p Hdumps Hload Hd Hn He.
  pose proof (ObjectCache_put_cases self id obj w) as Hput.
  rewrite Hdumps in Hput. destruct Hput as (w1 & Hfput & Hput).
  exists w1. split; [done|].
  rewrite (put_exact self id data w d Hd Hn) in Hfput.
  injection Hfput as <-. set (w1 := with_folder _ _ _).
  assert (lookup_path p w1 = Some (File (Bytes data) (clock w))) as Hp.
  { unfold lookup_path, w1, p, FileCache.__filename. record_simpl.
    rewrite dirs_with_folder. apply lookup_insert_eq. }
  assert (clock w1 = clock w) as Hc.
  { unfold w1, with_folder. rewrite <- (clock_mktmp_world self w).
    by destruct (mktmp_world self w). }
  rewrite (ObjectCache_get_unexpired self id w1 (Bytes data) (clock w)).
  - cbn [decode]. by rewrite Hload.
  - apply passes_expiry_check_exact with (c := Bytes data) (t := clock w);
      [by rewrite Hc | done].
  - done.
Qed.

Lemma DocumentCache_round_trip self id e doc w d :
  let p := FileCache.__filename self id in
  Parser_parse (Element_str e) = Some doc →
  dirs (mktmp_world self w) !! location self = Some d →
  (∀ t, d !! base p ≠ Some (Dir t)) →
  passes_expiry_check self (clock w) (clock w) →
  ∃ w1, DocumentCache.put self id (PyElement e) w = (Return (PyElement e), w1)
    ∧ (DocumentCache.get self id w1).1 = Return doc.
Proof.
  intros p Hparse Hd Hn He. unfold DocumentCache.put, mbind, M_bind, bind.
  rewrite (put_exact self id (Element_str e) w d Hd Hn).
  eexists. split; [done|]. set (w1 := with_folder _ _ _).
  assert (lookup_path p w1 = Some (File (Bytes (Element_str e)) (clock w)))
    as Hp.
  { unfold lookup_path, w1, p, FileCache.__filename. record_simpl.
    rewrite dirs_with_folder. apply lookup_insert_eq. }
  assert (clock w1 = clock w) as Hc.
  { unfold w1, with_folder. rewrite <- (clock_mktmp_world self w).
    by destruct (mktmp_world self w). }
  rewrite (DocumentCache_get_unexpired self id w1 (Bytes (Element_str e))
             (clock w)).
  - cbn [decode]. by rewrite Hparse.
  - apply passes_expiry_check_exact
      with (c := Bytes (Element_str e)) (t := clock w); [by rewrite Hc | done].
  - done.
Qed.

(** A cache configured in months returns nothing, whatever it holds. *)
Lemma months_get_absent self id w n :
  duration self = (Some "months", n) →
  1 ≤ n →
  FileCache.get self id w = (Return PyNone, w)
  ∧ DocumentCache.get self id w = (Return PyNone, w)
  ∧ ObjectCache.get self id w = (Return PyNone, w).
Proof.
  intros Hd Hn.
  destruct (months_check_raises self (FileCache.__filename self id) w n Hd Hn)
    as [e He].
  apply get_None_of_getf, (getf_check_raises self id w e He).
Qed.

(** An entry that does not decode is purged by [get] of the subclasses,
    when the expiry check lets it through. *)
Lemma corrupt_entry_purged self id w c t :
  let p := FileCache.__filename self id in
  passes_expiry_check self t (clock w) →
  lookup_path p w = Some (File c t) →
  (decode DocumentCacheClass c = None →
     DocumentCache.get self id w = (Return PyNone, update_path p None w))
  ∧ (decode ObjectCacheClass c = None →
     ObjectCache.get self id w = (Return PyNone, update_path p None w)).
Proof.
  intros p He Hp.
  pose proof (passes_expiry_check_exact self p w c t He Hp) as Hr.
  split; intros Hdec.
  - by rewrite (DocumentCache_get_unexpired self id w c t Hr Hp), Hdec.
  - by rewrite (ObjectCache_get_unexpired self id w c t Hr Hp), Hdec.
Qed.

(** The methods of [FileCache] leave no file object open. *)
Lemma check_version_opened self w :
  opened (FileCache.__check_version self w).2 = opened w.
Proof.
  unfold FileCache.__check_version, try_except.
  set (path := os_path_join (location self) "version").
  assert (∀ w0 r w1,
    (f ← FileCache.__open self path ModeWrite;
     try_finally (file_write f (PyStr suds___version__))
       (file_close (Some f))) w0 = (r, w1) →
    opened w1 = opened w0) as Hwrite.
  { intros w0 r w1. unfold FileCache.__open, mbind, M_bind, bind.
    rewrite mktmp_exact.
    destruct (open_write_cases path (mktmp_world self w0)) as [->| ->].
    - intros [= <- <-]. apply opened_mktmp_world.
    - unfold try_finally.
      match goal with
      | |- context [file_write ?f ?d ?w] =>
          pose proof (file_write_opened f d w) as Ho;
          destruct (file_write f d w) as [r2 w2]
      end.
      unfold file_close. cbn [fileno]. cbn in Ho. intros [= <- <-].
      destruct w2. record_simpl. subst.
      by rewrite fresh_closed, opened_mktmp_world. }
  assert (∀ w0, opened (FileCache.clear self w0).2 = opened w0) as Hclear.
  { intros w0. destruct (dirs w0 !! location self) as [d|] eqn:Hd.
    - rewrite (clear_exact self w0 d Hd). by destruct w0.
    - by rewrite (clear_missing self w0 Hd). }
  assert (∀ w0, opened ((FileCache.clear self;;
                         f ← FileCache.__open self path ModeWrite;
                         try_finally (file_write f (PyStr suds___version__))
                           (file_close (Some f))) w0).2 = opened w0) as Hh.
  { intros w0. unfold mbind at 1, M_bind at 1, bind at 1.
    specialize (Hclear w0).
    destruct (FileCache.clear self w0) as [[[]|e] w1]; [|done].
    cbn in Hclear. rewrite <- Hclear.
    match goal with
    | |- context [opened (?m w1).2] =>
        specialize (Hwrite w1); destruct (m w1) as [r w2]
    end.
    by apply (Hwrite r w2). }
  unfold mbind at 1, M_bind at 1, bind at 1.
  unfold FileCache.__open, mbind at 1, M_bind at 1, bind at 1.
  rewrite mktmp_exact.
  destruct (lookup_path path (mktmp_world self w)) as [[c t|t]|] eqn:Hp.
  - rewrite (open_read_file path _ c t Hp).
    unfold mbind at 1, M_bind at 1, bind at 1, try_finally.
    assert (∃ r, file_read (Some (FileObject (fresh (opened (mktmp_world self w)))
              path ModeRead c))
             (set_opened ({[fresh (opened (mktmp_world self w))]}
                           ∪ opened (mktmp_world self w))
                (mktmp_world self w))
           = (r, set_opened ({[fresh (opened (mktmp_world self w))]}
                              ∪ opened (mktmp_world self w))
                   (mktmp_world self w))) as [r ->].
    { cbn [file_read fmode snapshot]. destruct c; by eexists. }
    rewrite close_after_open by done.
    destruct r as [v|e].
    + destruct v as [|v| |]; unfold raise; try (rewrite Hh; apply opened_mktmp_world).
      destruct (String.eqb v suds___version__); unfold ret, raise.
      * apply opened_mktmp_world.
      * rewrite Hh. apply opened_mktmp_world.
    + rewrite Hh. apply opened_mktmp_world.
  - rewrite open_read_fails by (intros ??; by rewrite Hp).
    rewrite Hh. apply opened_mktmp_world.
  - rewrite open_read_fails by (intros ??; by rewrite Hp).
    rewrite Hh. apply opened_mktmp_world.
Qed.

Lemma FileCache_leaves_no_file_open self id data w :
  opened (FileCache.get self id w).2 = opened w
  ∧ opened (FileCache.put self id data w).2 = opened w
  ∧ opened (FileCache.purge self id w).2 = opened w
  ∧ opened (FileCache.clear self w).2 = opened w
  ∧ opened (FileCache.__check_version self w).2 = opened w.
Proof.
  split; [|split; [|split; [|split]]].
  - destruct (get_cases self id w) as [(w' & -> & Ho & _)|(b & t & _ & ->)];
      done.
  - by destruct (put_returns self id data w) as (w' & -> & Ho).
  - rewrite purge_exact. cbn. case_match; [|done].
    case_match; [apply opened_update_path | done].
  - destruct (dirs w !! location self) as [d|] eqn:Hd.
    + rewrite (clear_exact self w d Hd). by destruct w.
    + by rewrite (clear_missing self w Hd).
  - apply check_version_opened.
Qed.

End Support.

(** ** The claims on examples *)

Section Examples.

#[local] Existing Instance sample_imports.

(** C1 (the code breaks it): a cache configured in months does not give
    back what was just put into it.  The entry is written and stays on
    disk, no expiry or version event occurs, and [get] returns [None]:
    [timedelta] has no keyword [months], the expiry check raises and
    [_getf] swallows the exception. *)
Theorem months_duration_breaks_round_trip :
  let init := FileCache.__init__ FileCacheClass (Some "/tmp/suds")
                [("months", 1)] (sample_world ∅ 0) in
  let self := Instance_ FileCacheClass "/tmp/suds" (Some "months", 1) in
  let put := FileCache.put self "a" (PyStr "x") init.2 in
  init.1 = Return self
  ∧ put.1 = Return (PyStr "x")
  ∧ lookup_path (FileCache.__filename self "a") put.2
    = Some (File (Bytes "x") 0)
  ∧ FileCache.get self "a" put.2 = (Return PyNone, put.2).
Proof. vm_compute. by repeat split. Qed.

(** C8 (the code breaks it): in a cache configured in months, an entry
    that does not decode is not purged: [get] of [DocumentCache] and of
    [ObjectCache] returns [None] and leaves the file where it is. *)
Theorem months_duration_keeps_corrupt_entry :
  let w := sample_world {[ "suds-a.xml" := File (Bytes "garbage") 0;
                           "suds-a.px" := File (Bytes "garbage") 0 ]} 5 in
  let doc := Instance_ DocumentCacheClass "/tmp/suds" (Some "months", 1) in
  let obj := Instance_ ObjectCacheClass "/tmp/suds" (Some "months", 1) in
  Parser_parse "garbage" = None
  ∧ pickle_load "garbage" = None
  ∧ DocumentCache.get doc "a" w = (Return PyNone, w)
  ∧ lookup_path (FileCache.__filename doc "a") w
    = Some (File (Bytes "garbage") 0)
  ∧ ObjectCache.get obj "a" w = (Return PyNone, w)
  ∧ lookup_path (FileCache.__filename obj "a") w
    = Some (File (Bytes "garbage") 0).
Proof. vm_compute. by repeat split. Qed.

(** C10 (the code breaks it): [get] of [ObjectCache] returns the unpickled
    entry and leaves the file object it read it from open; nothing was open
    before the call. *)
Theorem codec_get_leaves_file_open :
  let w := sample_world {[ "suds-a.px" := File (Bytes "T.") 0 ]} 5 in
  let self := Instance_ ObjectCacheClass "/tmp/suds" (None, 0) in
  opened w = ∅
  ∧ ObjectCache.get self "a" w
    = (Return (PyObject PyTrue), set_opened {[0%nat]} w)
  ∧ opened (ObjectCache.get self "a" w).2 ≠ opened w.
Proof. vm_compute. repeat split. intros Heq. discriminate Heq. Qed.


(** C4, as stated, fails: an entry read exactly one second after its
    creation is still there. *)
Lemma entry_present_at_boundary :
  let self := Instance_ FileCacheClass "/tmp/suds" (Some "seconds", 1) in
  let w := sample_world {[ "suds-a.gcf" := File (Bytes "x") 0 ]} 1000000 in
  clock w = 0 + 1000000
  ∧ (FileCache.get self "a" w).1 ≠ Return PyNone.
Proof. vm_compute. by split. Qed.

(** C5, as stated, fails: with two duration keywords the construction
    succeeds. *)
Lemma two_durations_construct :
  ¬ ∃ e, (FileCache.__init__ FileCacheClass (Some "/tmp/suds")
            [("days", 1); ("hours", 2)] (sample_world ∅ 0)).1 = Raise e.
Proof. vm_compute. by intros [e ?]. Qed.

(** C6, as stated, fails: [put] does not return its argument, and
    [purge] raises. *)
Lemma NoCache_put_returns_None :
  (NoCache.put "a" (PyStr "x") (sample_world ∅ 0)).1 ≠ Return (PyStr "x")
  ∧ ¬ ∃ u, (NoCache.purge "a" (sample_world ∅ 0)).1 = Return u.
Proof. vm_compute. split; [done | by intros [u ?]]. Qed.

(** C7, as stated, fails: [put] of [ObjectCache] raises when the object
    cannot be pickled. *)
Lemma ObjectCache_put_raises :
  let self := Instance_ ObjectCacheClass "/tmp/suds" (None, 0) in
  ¬ ∃ w', ObjectCache.put self "a" (PyObject PyLambda) (sample_world ∅ 0)
          = (Return (PyObject PyLambda), w').
Proof. vm_compute. by intros [w' ?]. Qed.


(** C4 (as amended) one microsecond after the boundary: the entry is gone. *)
Lemma expiry_is_strictly_after_boundary_witness :
  let self := Instance_ FileCacheClass "/tmp/suds" (Some "seconds", 1) in
  let w := sample_world sample_folder 1000001 in
  FileCache.get self "a" w
  = (Return PyNone, update_path (FileCache.__filename self "a") None w).
Proof.
  intros self w.
  apply (expiry_is_strictly_after_boundary self "a" w "x" 0);
    [reflexivity | reflexivity | by vm_compute | by vm_compute].
Defined.

(** C5 (as amended) with the keywords [days] and [hours]. *)
Lemma several_durations_are_ignored_witness :
  let w := sample_world sample_folder 5 in
  (1 < length [("days", 1); ("hours", 2)])%nat
  ∧ FileCache.__init__ FileCacheClass None [("days", 1); ("hours", 2)] w
    = FileCache.__init__ FileCacheClass None [] w.
Proof.
  intros w. split; [cbn; lia|].
  apply (several_durations_are_ignored FileCacheClass None
           [("days", 1); ("hours", 2)] w).
  cbn. lia.
Defined.

(** C9 on the folder of the examples: the entry goes, the sub-directory
    and the file of another program stay. *)
Lemma clear_removes_prefixed_files_witness :
  let self := Instance_ FileCacheClass "/tmp/suds" (None, 0) in
  let w := sample_world sample_folder 5 in
  dirs w !! location self = Some sample_folder
  ∧ ∃ w', FileCache.clear self w = (Return tt, w')
      ∧ lookup_path (Path "/tmp/suds" "suds-a.gcf") w' = None
      ∧ lookup_path (Path "/tmp/suds" "suds-d") w' = Some (Dir 0)
      ∧ lookup_path (Path "/tmp/suds" "notes.txt") w'
        = Some (File (Bytes "n") 0).
Proof.
  intros self w.
  assert (dirs w !! location self = Some sample_folder) as Hd by reflexivity.
  split; [done|].
  destruct (clear_removes_prefixed_files self w sample_folder Hd)
    as (w' & Hc & Hl & _).
  exists w'. split; [exact Hc|]. rewrite !Hl. vm_compute. repeat split.
Defined.

End Examples.

(** * Further properties of the module *)

(** ** File names *)

Section FileNames.

Lemma list_ascii_of_string_append (a b : string) :
  String.list_ascii_of_string (a +:+ b)
  = (String.list_ascii_of_string a ++ String.list_ascii_of_string b)%list.
Proof. induction a as [|c a IH]; [done|]. simpl. by f_equal. Qed.

Lemma list_ascii_of_string_inj (a b : string) :
  String.list_ascii_of_string a = String.list_ascii_of_string b → a = b.
Proof.
  intros Heq. rewrite <- (String.string_of_list_ascii_of_string a).
  rewrite <- (String.string_of_list_ascii_of_string b). by rewrite Heq.
Qed.

(** X1: the name of an entry's file tells the id and the class of the
    cache: two entries share a file name only when they have the same id and
    belong to caches of the same class. *)
Theorem filename_determines_entry self1 self2 id1 id2 :
  base (FileCache.__filename self1 id1) = base (FileCache.__filename self2 id2) →
  class_ self1 = class_ self2 ∧ id1 = id2.
Proof.
  unfold FileCache.__filename, FileCache.fnprefix, FileCache.fnsuffix.
  cbn [base os_path_join String.append]. intros [= Heq].
  apply (f_equal String.list_ascii_of_string) in Heq.
  rewrite !list_ascii_of_string_append in Heq.
  destruct (class_ self1), (class_ self2); cbn in Heq;
    try (apply app_inv_tail in Heq; split; [done|];
         by apply list_ascii_of_string_inj);
    apply (f_equal (@rev ascii)) in Heq; rewrite !rev_app_distr in Heq;
    cbn in Heq; discriminate Heq.
Qed.

End FileNames.

(** ** The entries an operation leaves alone *)

Section Frame.

Context `{Imports}.

Lemma same_but_refl p w : same_but p w w.
Proof. unfold same_but. repeat split; auto. Qed.

Lemma same_but_trans p w1 w2 w3 :
  same_but p w1 w2 → same_but p w2 w3 → same_but p w1 w3.
Proof.
  intros (Hd1 & Hl1 & Hm1 & Hc1 & Ht1) (Hd2 & Hl2 & Hm2 & Hc2 & Ht2).
  split; [|split; [|split; [|split]]]; try congruence.
  - intros loc. by rewrite Hd2, Hd1.
  - intros q Hq. by rewrite Hl2, Hl1.
Qed.

Lemma mktmp_world_twice self w :
  mktmp_world self (mktmp_world self w) = mktmp_world self w.
Proof.
  destruct (dirs w !! location self) as [d|] eqn:Hd.
  - assert (mktmp_world self w = w) as Hw
      by (apply mktmp_world_exists; eauto).
    by rewrite !Hw.
  - destruct (mkdir_ok w) eqn:Hm.
    + apply mktmp_world_exists. unfold mktmp_world. rewrite Hd, Hm.
      record_simpl. rewrite lookup_insert_eq. eauto.
    + assert (mktmp_world self w = w) as Hw
        by (unfold mktmp_world; by rewrite Hd, Hm).
      by rewrite !Hw.
Qed.

(** [__mktmp] does the same to two states that differ by an entry. *)
Lemma same_but_mktmp_world self p w w' :
  same_but p w w' → same_but p (mktmp_world self w) (mktmp_world self w').
Proof.
  intros (Hd & Hl & Hm & Hc & Ht). unfold mktmp_world.
  pose proof (Hd (location self)) as Hloc.
  destruct (dirs w !! location self) as [d|] eqn:Hw;
    destruct (dirs w' !! location self) as [d'|] eqn:Hw'.
  - done.
  - destruct (proj2 Hloc) as [? [=]]. eauto.
  - destruct (proj1 Hloc) as [? [=]]. eauto.
  - rewrite Hm. destruct (mkdir_ok w) eqn:Hk;
      [|unfold same_but; rewrite Hk; auto].
    split; [|split; [|record_simpl; by rewrite Hk, Hm, Hc, Ht]].
    + intros loc. record_simpl.
      destruct (decide (loc = location self)) as [->|Hne].
      * rewrite !lookup_insert_eq. split; eauto.
      * rewrite !lookup_insert_ne by done. apply Hd.
    + intros q Hq. specialize (Hl q Hq). unfold lookup_path in *. record_simpl.
      destruct (decide (folder q = location self)) as [->|Hne].
      * by rewrite !lookup_insert_eq.
      * by rewrite !lookup_insert_ne.
Qed.

Lemma changes_refl self p w : changes_entry_only self p w w.
Proof. left. apply same_but_refl. Qed.

Lemma changes_trans self p w1 w2 w3 :
  changes_entry_only self p w1 w2 → changes_entry_only self p w2 w3 →
  changes_entry_only self p w1 w3.
Proof.
  intros [H1|H1] [H2|H2].
  - left. by apply (same_but_trans _ _ w2).
  - right. apply (same_but_trans _ _ (mktmp_world self w2)); [|done].
    by apply same_but_mktmp_world.
  - right. by apply (same_but_trans _ _ w2).
  - right. apply (same_but_trans _ _ (mktmp_world self w2)); [|done].
    rewrite <- (mktmp_world_twice self w1). by apply same_but_mktmp_world.
Qed.

Lemma lookup_set_opened q o w :
  lookup_path q (set_opened o w) = lookup_path q w.
Proof. by destruct w. Qed.

Lemma changes_set_opened self p o w :
  changes_entry_only self p w (set_opened o w).
Proof. left. destruct w. unfold same_but. repeat split; auto. Qed.

Lemma changes_update_path self p n w :
  changes_entry_only self p w (update_path p n w).
Proof.
  left. split; [|split].
  - intros loc. unfold update_path.
    destruct (dirs w !! folder p) as [d|] eqn:Hd; [|done]. record_simpl.
    destruct (decide (loc = folder p)) as [->|Hne].
    + rewrite lookup_insert_eq, Hd. split; eauto.
    + by rewrite lookup_insert_ne.
  - intros q Hq. by apply lookup_update_path_ne.
  - unfold update_path. destruct (dirs w !! folder p); by destruct w.
Qed.

Lemma changes_mktmp_world self p w :
  changes_entry_only self p w (mktmp_world self w).
Proof. right. apply same_but_refl. Qed.

Lemma touches_only_ret {A} self p (a : A) : touches_only self p (ret a).
Proof. intros w. apply changes_refl. Qed.

Lemma touches_only_raise {A} self p e : touches_only self p (raise (A:=A) e).
Proof. intros w. apply changes_refl. Qed.

Lemma touches_only_bind {A B} self p (m : M A) (k : A → M B) :
  touches_only self p m → (∀ a, touches_only self p (k a)) →
  touches_only self p (bind m k).
Proof.
  intros Hm Hk w. unfold bind. specialize (Hm w).
  destruct (m w) as [[a|e] w1]; cbn in *; [|done].
  by apply (changes_trans _ _ _ w1); [|apply Hk].
Qed.

Lemma touches_only_try_except {A} self p (body : M A) (handler : exn → M A) :
  touches_only self p body → (∀ e, touches_only self p (handler e)) →
  touches_only self p (try_except body handler).
Proof.
  intros Hb Hh w. unfold try_except. specialize (Hb w).
  destruct (body w) as [[a|e] w1]; cbn in *; [done|].
  by apply (changes_trans _ _ _ w1); [|apply Hh].
Qed.

Lemma touches_only_try_finally {A} self p (body : M A) (final : M unit) :
  touches_only self p body → touches_only self p final →
  touches_only self p (try_finally body final).
Proof.
  intros Hb Hf w. unfold try_finally. specialize (Hb w).
  destruct (body w) as [r w1]. specialize (Hf w1).
  destruct (final w1) as [[[]|e] w2]; cbn in *;
    by apply (changes_trans _ _ _ w1).
Qed.

Lemma touches_only_remove self p : touches_only self p (os_remove p).
Proof.
  intros w. unfold os_remove.
  destruct (lookup_path p w) as [[c t|t]|]; try apply changes_refl.
  apply changes_update_path.
Qed.

Lemma touches_only_open self p m : touches_only self p (open_ p m).
Proof.
  intros w. unfold open_. destruct m.
  - destruct (lookup_path p w) as [[c t|t]|]; try apply changes_refl.
    apply changes_set_opened.
  - destruct (dirs w !! folder p); [|apply changes_refl].
    destruct (lookup_path p w) as [[c t|t]|]; try apply changes_refl; cbn;
      (eapply changes_trans; [apply changes_update_path|apply changes_set_opened]).
Qed.

Lemma touches_only_write self f data :
  touches_only self (name f) (file_write f data).
Proof.
  intros w. unfold file_write.
  destruct (fmode f); [apply changes_refl|].
  destruct (bytes_of data); [|apply changes_refl].
  destruct (lookup_path (name f) w) as [[[old|] t|t]|]; try apply changes_refl.
  apply changes_update_path.
Qed.

Lemma touches_only_close self p f : touches_only self p (file_close f).
Proof.
  intros w. destruct f; [apply changes_set_opened | apply changes_refl].
Qed.

Lemma touches_only_mktmp self p : touches_only self p (FileCache.__mktmp self).
Proof. intros w. rewrite mktmp_exact. apply changes_mktmp_world. Qed.

Lemma touches_only_open_method self p m :
  touches_only self p (FileCache.__open self p m).
Proof.
  apply touches_only_bind; [apply touches_only_mktmp|].
  intros _. apply touches_only_open.
Qed.

Lemma touches_only_remove_if_expired self p :
  touches_only self p (FileCache.__remove_if_expired self p).
Proof.
  intros w.
  destruct (remove_if_expired_cases self p w) as [[r ->]|(c & t & _ & ->)];
    [apply changes_refl | apply changes_update_path].
Qed.

Lemma touches_only_getf self id :
  touches_only self (FileCache.__filename self id) (FileCache._getf self id).
Proof.
  apply touches_only_try_except; [|intros; apply touches_only_ret].
  apply touches_only_bind; [apply touches_only_remove_if_expired|]. intros _.
  apply touches_only_bind; [apply touches_only_open_method|]. intros f.
  apply touches_only_ret.
Qed.

Lemma touches_only_read self p f : touches_only self p (file_read f).
Proof.
  intros w. destruct f as [f|]; [|apply changes_refl]. cbn.
  repeat case_match; apply changes_refl.
Qed.

Lemma touches_only_purge self id :
  touches_only self (FileCache.__filename self id) (FileCache.purge self id).
Proof.
  apply touches_only_try_except; [apply touches_only_remove|].
  intros; apply touches_only_ret.
Qed.

Lemma touches_only_get self id :
  touches_only self (FileCache.__filename self id) (FileCache.get self id).
Proof.
  apply touches_only_try_except; [|intros; apply touches_only_ret].
  apply touches_only_bind; [apply touches_only_getf|]. intros f.
  apply touches_only_try_finally; [apply touches_only_read|].
  apply touches_only_close.
Qed.

Lemma open_name p m w f w' : open_ p m w = (Return f, w') → name f = p.
Proof.
  unfold open_. destruct m; repeat case_match; intros [= <- <-]; done.
Qed.

Lemma touches_only_bind_with {A B} self p (Q : A → Prop) (m : M A)
    (k : A → M B) :
  touches_only self p m →
  (∀ w a w', m w = (Return a, w') → Q a) →
  (∀ a, Q a → touches_only self p (k a)) →
  touches_only self p (bind m k).
Proof.
  intros Hm HQ Hk w. unfold bind. specialize (Hm w).
  specialize (HQ w). destruct (m w) as [[a|e] w1]; cbn in *; [|done].
  apply (changes_trans _ _ _ w1); [done|]. by apply Hk, (HQ a w1).
Qed.

Lemma open_method_name self p m w f w' :
  FileCache.__open self p m w = (Return f, w') → name f = p.
Proof.
  unfold FileCache.__open, mbind, M_bind, bind. rewrite mktmp_exact.
  apply open_name.
Qed.

Lemma touches_only_put self id data :
  touches_only self (FileCache.__filename self id) (FileCache.put self id data).
Proof.
  apply touches_only_try_except; [|intros; apply touches_only_ret].
  apply touches_only_bind_with
    with (Q := λ f, name f = FileCache.__filename self id).
  - apply touches_only_open_method.
  - intros w f w'. apply open_method_name.
  - intros f <-. apply touches_only_bind; [|intros; apply touches_only_ret].
    apply touches_only_try_finally;
      [apply touches_only_write | apply touches_only_close].
Qed.

(** X2: [get], [put] and [purge] of the three classes, on an id that is
    safe, change nothing in the file system but the file of the entry they
    are called on, and the folder of the cache, which they may create as
    [__mktmp] does when it is missing: apart from that folder, the folders
    are those there were, and every other path, and so the entry of every
    other id, holds what it held. *)
Theorem operations_touch_only_their_entry self id obj :
  safe_id self id →
  let p := FileCache.__filename self id in
  touches_only self p (FileCache.get self id)
  ∧ touches_only self p (FileCache.put self id obj)
  ∧ touches_only self p (FileCache.purge self id)
  ∧ touches_only self p (DocumentCache.get self id)
  ∧ touches_only self p (DocumentCache.put self id obj)
  ∧ touches_only self p (ObjectCache.get self id)
  ∧ touches_only self p (ObjectCache.put self id obj).
Proof.
  intros _ p.
  assert (∀ fp, touches_only self p
            ((match fp with Some _ => file_close fp | None => ret tt end);;
             FileCache.purge self id;; ret (PyNone : object))) as Hhandler.
  { intros fp. apply touches_only_bind.
    - destruct fp; [apply touches_only_close | apply touches_only_ret].
    - intros _. apply touches_only_bind; [apply touches_only_purge|].
      intros _. apply touches_only_ret. }
  split; [apply touches_only_get|]. split; [apply touches_only_put|].
  split; [apply touches_only_purge|]. split; [|split; [|split]].
  - apply touches_only_try_except; [|intros e; exact (Hhandler None)].
    apply touches_only_bind; [apply touches_only_getf|]. intros fp.
    apply touches_only_try_except; [|intros e; exact (Hhandler fp)].
    destruct fp as [f|]; [|apply touches_only_ret].
    apply touches_only_try_finally.
    + apply touches_only_bind; [apply touches_only_read|]. intros data.
      destruct data; try apply touches_only_raise.
      destruct (Parser_parse s);
        [apply touches_only_ret|apply touches_only_raise].
    + destruct Parser_closes;
        [apply touches_only_close | apply touches_only_ret].
  - unfold DocumentCache.put. destruct obj; try apply touches_only_ret.
    apply touches_only_bind; [apply touches_only_put|].
    intros _. apply touches_only_ret.
  - apply touches_only_try_except; [|intros e; exact (Hhandler None)].
    apply touches_only_bind; [apply touches_only_getf|]. intros fp.
    apply touches_only_try_except; [|intros e; exact (Hhandler fp)].
    destruct fp as [f|]; [|apply touches_only_ret].
    apply touches_only_bind; [apply touches_only_read|]. intros data.
    destruct data; try apply touches_only_raise.
    destruct (pickle_load s); [apply touches_only_ret|apply touches_only_raise].
  - apply touches_only_bind.
    + unfold ObjectCache.pickle_dumps_obj.
      destruct (pickle_dumps obj); [apply touches_only_ret|apply touches_only_raise].
    + intros data. apply touches_only_bind; [apply touches_only_put|].
      intros _. apply touches_only_ret.
Qed.

End Frame.

(** ** Storing and reading back *)

Section RoundTrips.

Context `{Imports}.

Lemma lookup_set_clock q t w : lookup_path q (set_clock t w) = lookup_path q w.
Proof. by destruct w. Qed.

Lemma clock_set_clock t w : clock (set_clock t w) = t.
Proof. by destruct w. Qed.

(** The entry as [put] leaves it, seen at a later time. *)
Lemma lookup_after_put self id data b w d now :
  let p := FileCache.__filename self id in
  bytes_of data = Some b →
  dirs (mktmp_world self w) !! location self = Some d →
  (∀ t, d !! base p ≠ Some (Dir t)) →
  FileCache.put self id data w
  = (Return data, (FileCache.put self id data w).2)
  ∧ lookup_path p (set_clock now (FileCache.put self id data w).2)
    = Some (File (Bytes b) (clock w)).
Proof.
  intros p Hb Hd Hn. rewrite (put_bytes self id data b w d Hb Hd Hn).
  split; [done|].
  cbn [snd]. rewrite lookup_set_clock.
  unfold lookup_path, p, FileCache.__filename. record_simpl.
  rewrite dirs_with_folder. apply lookup_insert_eq.
Qed.

(** X3: the bytes that [put] stored in a [FileCache] under a safe id,
    [get] returns, immediately and at any later time at which the entry
    passes the expiry check (any time at all for a cache that never expires),
    and this [get] changes nothing.  The value is a byte string, or another
    object that [write] takes as bytes; [put] returns it as it is and [get]
    returns the byte string.  The entry must be one [put] can write: the
    folder exists or can be created, and the path of the entry is not a
    directory. *)
Theorem FileCache_put_then_get self id data b w d now :
  safe_id self id →
  bytes_of data = Some b →
  dirs (mktmp_world self w) !! location self = Some d →
  (∀ t, d !! base (FileCache.__filename self id) ≠ Some (Dir t)) →
  passes_expiry_check self (clock w) now →
  (FileCache.put self id data w).1 = Return data
  ∧ FileCache.get self id (set_clock now (FileCache.put self id data w).2)
    = (Return (PyStr b), set_clock now (FileCache.put self id data w).2).
Proof.
  intros _ Hb Hd Hn He.
  destruct (lookup_after_put self id data b w d now Hb Hd Hn) as [Hput Hp].
  split; [by rewrite Hput|].
  apply get_unexpired with (t := clock w); [|done].
  apply passes_expiry_check_exact with (c := Bytes b) (t := clock w); [|done].
  by rewrite clock_set_clock.
Qed.

(** X4: the same for [ObjectCache], for a safe id and an object that
    [pickle.load] reads back from what [pickle.dumps] wrote. *)
Theorem ObjectCache_put_then_get self id obj data w d now :
  safe_id self id →
  pickle_dumps obj = Some data →
  pickle_load data = Some obj →
  dirs (mktmp_world self w) !! location self = Some d →
  (∀ t, d !! base (FileCache.__filename self id) ≠ Some (Dir t)) →
  passes_expiry_check self (clock w) now →
  (ObjectCache.put self id obj w).1 = Return obj
  ∧ (ObjectCache.get self id (set_clock now (ObjectCache.put self id obj w).2)).1
    = Return obj.
Proof.
  intros _ Hdumps Hload Hd Hn He.
  destruct (lookup_after_put self id (PyStr data) data w d now eq_refl Hd Hn)
    as [Hput Hp].
  pose proof (ObjectCache_put_cases self id obj w) as Hc. rewrite Hdumps in Hc.
  destruct Hc as (w1 & Hf & Ho). rewrite Hf in Hp. rewrite Ho. cbn [fst snd] in *.
  split; [done|].
  rewrite (ObjectCache_get_unexpired self id _ (Bytes data) (clock w)).
  - cbn [decode]. by rewrite Hload.
  - apply passes_expiry_check_exact with (c := Bytes data) (t := clock w);
      [by rewrite clock_set_clock | done].
  - done.
Qed.

(** X5: the same for [DocumentCache], for a safe id and an element whose
    text the parser accepts: [put] returns the element and [get] returns the
    document that the parser builds from the text of the element. *)
Theorem DocumentCache_put_then_get self id e doc w d now :
  safe_id self id →
  Parser_parse (Element_str e) = Some doc →
  dirs (mktmp_world self w) !! location self = Some d →
  (∀ t, d !! base (FileCache.__filename self id) ≠ Some (Dir t)) →
  passes_expiry_check self (clock w) now →
  (DocumentCache.put self id (PyElement e) w).1 = Return (PyElement e)
  ∧ (DocumentCache.get self id
       (set_clock now (DocumentCache.put self id (PyElement e) w).2)).1
    = Return doc.
Proof.
  intros _ Hparse Hd Hn He.
  destruct (lookup_after_put self id (PyStr (Element_str e)) (Element_str e)
              w d now eq_refl Hd Hn) as [Hput Hp].
  unfold DocumentCache.put, mbind, M_bind, bind. rewrite Hput. cbn [fst snd].
  split; [done|].
  rewrite (DocumentCache_get_unexpired self id _ (Bytes (Element_str e))
             (clock w)).
  - cbn [decode]. by rewrite Hparse.
  - apply passes_expiry_check_exact
      with (c := Bytes (Element_str e)) (t := clock w);
      [by rewrite clock_set_clock | done].
  - done.
Qed.

(** X6: a second [put] on an id replaces the first altogether: it
    returns what the second [put] alone would have returned and leaves the
    world that the second [put] alone would have left. *)
Theorem put_overwrites self id b1 b2 w d :
  dirs (mktmp_world self w) !! location self = Some d →
  (∀ t, d !! base (FileCache.__filename self id) ≠ Some (Dir t)) →
  FileCache.put self id (PyStr b2) (FileCache.put self id (PyStr b1) w).2
  = FileCache.put self id (PyStr b2) w.
Proof.
  intros Hd Hn. rewrite (put_exact self id b1 w d Hd Hn). cbn [snd].
  rewrite (put_exact self id b2 w d Hd Hn).
  set (p := FileCache.__filename self id) in *.
  set (w0 := mktmp_world self w).
  set (d1 := <[base p := File (Bytes b1) (clock w)]> d).
  assert (dirs (with_folder (location self) d1 w0) !! location self = Some d1)
    as Hd1 by apply dirs_with_folder.
  assert (mktmp_world self (with_folder (location self) d1 w0)
          = with_folder (location self) d1 w0) as Hm
    by (apply mktmp_world_exists; eauto).
  rewrite (put_exact self id b2 _ d1); [|by rewrite Hm|].
  - rewrite Hm, with_folder_twice. unfold d1. rewrite insert_insert_eq.
    f_equal. f_equal. f_equal. unfold w0, with_folder.
    rewrite <- (clock_mktmp_world self w). by destruct (mktmp_world self w).
  - intros t. unfold d1. fold p. by rewrite lookup_insert_eq.
Qed.

End RoundTrips.

(** ** Expiry *)

Section Expiry.

Context `{Imports}.

(** X7: with a duration value below 1 (the default 0, and negative
    values) nothing expires: [get] returns the bytes of an entry whatever
    its age and the clock, and changes nothing. *)
Theorem never_expires self id w b t :
  (duration self).2 < 1 →
  lookup_path (FileCache.__filename self id) w = Some (File (Bytes b) t) →
  FileCache.get self id w = (Return (PyStr b), w).
Proof.
  intros Hn Hp. apply get_unexpired with (t := t); [|done].
  apply passes_expiry_check_exact with (c := Bytes b) (t := t); [by left|done].
Qed.

(** X8: the expiry of an entry, for the units that [timedelta] takes
    (weeks, days, hours, minutes, seconds) and dates within [datetime]: an
    entry created at [t] is kept up to [t] plus the duration included.
    Later, [get] of the three classes deletes the file, without reading it,
    and returns [None]; until then [get] of [FileCache] returns its bytes and
    changes nothing. *)
Theorem expiry_threshold self id w b t n u k :
  duration self = (Some u, n) →
  1 ≤ n →
  timedelta_keyword u = Some k →
  n * k ≤ timedelta_max →
  lookup_path (FileCache.__filename self id) w = Some (File (Bytes b) t) →
  datetime_min ≤ t →
  t + n * k ≤ datetime_max →
  if t + n * k <? clock w
  then FileCache.get self id w
       = (Return PyNone, update_path (FileCache.__filename self id) None w)
       ∧ DocumentCache.get self id w
         = (Return PyNone, update_path (FileCache.__filename self id) None w)
       ∧ ObjectCache.get self id w
         = (Return PyNone, update_path (FileCache.__filename self id) None w)
  else FileCache.get self id w = (Return (PyStr b), w).
Proof.
  intros Hd Hn Hk Hmax Hp Htmin Htmax.
  pose proof (timedelta_keyword_pos u k Hk) as Hpos.
  pose proof (remove_if_expired_exact self (FileCache.__filename self id) w
                (Bytes b) t n u k Hd Hn Hk) as Hr.
  unfold datetime_min, datetime_max, timedelta_min, timedelta_max in *.
  specialize (Hr ltac:(nia) Hp ltac:(nia) ltac:(nia)).
  destruct (t + n * k <? clock w).
  - apply get_None_of_getf. by apply getf_expired with (c := Bytes b) (t := t).
  - by apply get_unexpired with (t := t).
Qed.

(** X9: a cache configured in months never serves an entry and never
    deletes one: whatever the state of the file system, [get] of the three
    classes returns [None] and changes nothing. *)
Theorem months_cache_serves_nothing self id w n :
  duration self = (Some "months", n) →
  1 ≤ n →
  FileCache.get self id w = (Return PyNone, w)
  ∧ DocumentCache.get self id w = (Return PyNone, w)
  ∧ ObjectCache.get self id w = (Return PyNone, w).
Proof.
  intros Hd Hn.
  destruct (months_check_raises self (FileCache.__filename self id) w n Hd Hn)
    as [e He].
  apply get_None_of_getf, (getf_check_raises self id w e He).
Qed.


End Expiry.

(** ** purge and clear *)

Section Removal.

Context `{Imports}.

(** X11: [purge] never raises.  It removes the file of the entry, if
    there is one, and nothing else; afterwards the entry is absent for [get]
    of the three classes.  A missing entry, or a directory in its place, is
    left as it is. *)
Theorem purge_removes_entry self id w :
  let p := FileCache.__filename self id in
  let w' := (FileCache.purge self id w).2 in
  (FileCache.purge self id w).1 = Return tt
  ∧ lookup_path p w'
    = match lookup_path p w with
      | Some (Dir t) => Some (Dir t)
      | _ => None
      end
  ∧ opened w' = opened w
  ∧ (FileCache.get self id w').1 = Return PyNone
  ∧ (DocumentCache.get self id w').1 = Return PyNone
  ∧ (ObjectCache.get self id w').1 = Return PyNone.
Proof.
  intros p w'. unfold w'. rewrite purge_exact. fold p. cbn [fst snd].
  assert (lookup_path p
            match lookup_path p w with
            | Some (File _ _) => update_path p None w
            | _ => w
            end
          = match lookup_path p w with
            | Some (Dir t) => Some (Dir t)
            | _ => None
            end) as Hl.
  { destruct (lookup_path p w) as [[c t|t]|] eqn:Hp; [|done..].
    apply lookup_update_path_None. }
  split; [done|]. split; [done|]. split.
  { destruct (lookup_path p w) as [[c t|t]|]; [|done..].
    apply opened_update_path. }
  assert (∀ c t, lookup_path p
            match lookup_path p w with
            | Some (File _ _) => update_path p None w
            | _ => w
            end ≠ Some (File c t)) as Hn.
  { intros c t. rewrite Hl. by destruct (lookup_path p w) as [[]|]. }
  destruct (getf_not_a_file self id _ Hn) as [Hg|Hg];
    destruct (get_None_of_getf _ _ _ _ Hg) as (-> & -> & ->); done.
Qed.

(** X12: after [clear] on a folder that exists, every safe id is absent
    for [get] of the three classes (the entries of the other ids lie in
    sub-directories, which [clear] skips), and a second [clear] changes
    nothing. *)
Theorem clear_empties_cache self w d :
  dirs w !! location self = Some d →
  let w' := (FileCache.clear self w).2 in
  (∀ id, safe_id self id →
         (FileCache.get self id w').1 = Return PyNone
         ∧ (DocumentCache.get self id w').1 = Return PyNone
         ∧ (ObjectCache.get self id w').1 = Return PyNone)
  ∧ FileCache.clear self w' = (Return tt, w').
Proof.
  intros Hd w'. unfold w'. rewrite (clear_exact self w d Hd). cbn [snd].
  set (w1 := with_folder (location self) (clear_folder d) w).
  assert (dirs w1 !! location self = Some (clear_folder d)) as Hd1
    by apply dirs_with_folder.
  split.
  - intros id _.
    assert (∀ c t, lookup_path (FileCache.__filename self id) w1
                   ≠ Some (File c t)) as Hn.
    { intros c t. unfold lookup_path, FileCache.__filename. record_simpl.
      rewrite Hd1, lookup_clear_folder.
      pose proof (prefix_filename self id) as Hp.
      unfold FileCache.__filename in Hp. record_simpl.
      unfold cleared. rewrite Hp. cbn [andb].
      repeat case_match; try done. by intros [= ->]. }
    destruct (getf_not_a_file self id _ Hn) as [Hg|Hg];
      destruct (get_None_of_getf _ _ _ _ Hg) as (-> & -> & ->); done.
  - rewrite (clear_exact self w1 _ Hd1). f_equal. unfold w1.
    rewrite with_folder_twice. f_equal.
    apply map_eq. intros k. rewrite !lookup_clear_folder.
    destruct (d !! k) as [n|]; [|done]. destruct (cleared k n) eqn:Hc; [done|].
    by rewrite Hc.
Qed.

End Removal.

(** ** Construction *)

Section Building.

Context `{Imports}.

Lemma init_given_location cls loc kw w :
  FileCache.__init__ cls (Some loc) kw w
  = (self ← FileCache.__set_duration (Instance_ cls loc (None, 0)) kw;
     FileCache.__check_version self;; ret self) w.
Proof. done. Qed.

Lemma init_default_location cls kw w :
  FileCache.__init__ cls None kw w
  = FileCache.__init__ cls (Some (os_path_join_folder (tempdir w) "suds")) kw w.
Proof. done. Qed.

(** The version check looks at the location of the instance only. *)
Lemma check_version_location self self' w :
  location self = location self' →
  FileCache.__check_version self w = FileCache.__check_version self' w.
Proof. destruct self, self'. cbn. by intros ->. Qed.

(** X13: a single duration keyword that is not one of the six units is
    refused: the construction raises, before anything is read or written. *)
Theorem unknown_unit_is_refused cls loc u v w :
  u ∉ FileCache.units →
  ∃ msg, FileCache.__init__ cls loc [(u, v)] w = (Raise (Exception msg), w).
Proof.
  intros Hu. destruct loc as [loc|]; [|rewrite init_default_location];
    rewrite init_given_location; unfold mbind, M_bind, bind;
    match goal with
    | |- context [FileCache.__set_duration ?s _ _] =>
        destruct (set_duration_unknown_unit s u v w Hu) as [msg ->]
    end; by exists msg.
Qed.

(** X14: a single duration keyword that is a unit is stored with its
    value, whatever the value, and changes nothing else: the construction
    does to the file system what it does without keyword. *)
Theorem unit_is_stored cls loc u v w :
  u ∈ FileCache.units →
  FileCache.__init__ cls loc [(u, v)] w
  = match FileCache.__init__ cls loc [] w with
    | (Return self, w') =>
        (Return (Instance_ (class_ self) (location self) (Some u, v)), w')
    | (Raise e, w') => (Raise e, w')
    end.
Proof.
  intros Hu. destruct loc as [loc|]; [|rewrite !init_default_location];
    rewrite !init_given_location; unfold mbind, M_bind, bind;
    match goal with
    | |- context [FileCache.__set_duration ?s [(u, v)] w] =>
        rewrite (set_duration_unit s u v w Hu);
        rewrite (set_duration_several s [] w) by done;
        cbn [class_ location];
        rewrite (check_version_location
                   (Instance_ cls (location s) (Some u, v)) s) by done
    end;
    by destruct (FileCache.__check_version _ w) as [[[]|e] w'].
Qed.

(** X15: over a folder whose marker holds the running version, the
    construction changes nothing: the entries of the folder survive. *)
Theorem current_version_keeps_cache cls loc kw w d t self :
  dirs w !! loc = Some d →
  d !! "version" = Some (File (Bytes suds___version__) t) →
  FileCache.__set_duration (Instance_ cls loc (None, 0)) kw w = (Return self, w) →
  FileCache.__init__ cls (Some loc) kw w = (Return self, w).
Proof.
  intros Hd Hv Hk. rewrite init_given_location. unfold mbind, M_bind, bind.
  rewrite Hk. destruct (set_duration_keeps _ _ _ _ _ Hk) as (_ & Hloc & _).
  cbn in Hloc. rewrite <- Hloc in Hd.
  by rewrite (check_version_current self w d t Hd Hv).
Qed.

(** The version check on a folder that does not exist. *)
Lemma check_version_missing self w :
  dirs w !! location self = None →
  FileCache.__check_version self w
  = if mkdir_ok w
    then (Return tt,
          with_folder (location self)
            {["version" := File (Bytes suds___version__) (clock w)]} w)
    else (Raise OSError, w).
Proof.
  intros Hd. destruct (mkdir_ok w) eqn:Hm.
  - set (w0 := with_folder (location self) ∅ w).
    assert (mktmp_world self w = w0) as Hw0
      by (unfold mktmp_world; by rewrite Hd, Hm).
    assert (dirs w0 !! location self = Some ∅) as Hd0 by apply dirs_with_folder.
    unfold FileCache.__check_version, try_except.
    unfold FileCache.__open at 1, mbind at 1, M_bind at 1, bind at 1.
    unfold mbind at 1, M_bind at 1, bind at 1.
    rewrite mktmp_exact, Hw0.
    rewrite open_read_fails.
    2:{ intros c t. unfold lookup_path. record_simpl. by rewrite Hd0. }
    unfold mbind at 1, M_bind at 1, bind at 1.
    rewrite (clear_exact self w0 ∅ Hd0).
    assert (clear_folder ∅ = ∅) as -> by apply map_filter_empty.
    rewrite with_folder_id by done.
    unfold mbind at 1, M_bind at 1, bind at 1.
    rewrite (open_write_exact self _ w0 ∅);
      [|done|by rewrite mktmp_world_exists by eauto|done].
    rewrite mktmp_world_exists by eauto.
    pose proof (write_close_exact (os_path_join (location self) "version")
                  suds___version__ w0 ∅ (clock w0)) as Hw.
    cbn zeta in Hw. record_simpl. rewrite Hw. unfold w0.
    rewrite with_folder_twice, insert_empty.
    by replace (clock (with_folder (location self) ∅ w)) with (clock w)
      by (by destruct w).
  - assert (mktmp_world self w = w) as Hw0
      by (unfold mktmp_world; by rewrite Hd, Hm).
    unfold FileCache.__check_version, try_except.
    unfold FileCache.__open at 1, mbind at 1, M_bind at 1, bind at 1.
    unfold mbind at 1, M_bind at 1, bind at 1.
    rewrite mktmp_exact, Hw0.
    rewrite open_read_fails.
    2:{ intros c t. unfold lookup_path. record_simpl. by rewrite Hd. }
    unfold mbind at 1, M_bind at 1, bind at 1.
    by rewrite (clear_missing self w Hd).
Qed.

(** X16: when the folder does not exist, the construction creates it
    with the marker of the running version as its only file; when it cannot
    be created, the construction raises [OSError] and changes nothing. *)
Theorem missing_folder cls loc kw w self :
  dirs w !! loc = None →
  FileCache.__set_duration (Instance_ cls loc (None, 0)) kw w = (Return self, w) →
  FileCache.__init__ cls (Some loc) kw w
  = if mkdir_ok w
    then (Return self,
          with_folder loc {["version" := File (Bytes suds___version__) (clock w)]}
            w)
    else (Raise OSError, w).
Proof.
  intros Hd Hk. rewrite init_given_location. unfold mbind, M_bind, bind.
  rewrite Hk. destruct (set_duration_keeps _ _ _ _ _ Hk) as (_ & Hloc & _).
  cbn in Hloc. rewrite <- Hloc in *.
  rewrite (check_version_missing self w Hd). by destruct (mkdir_ok w).
Qed.

(** X17: when the path of the marker is a directory, the construction
    clears the folder and then raises [IOError]: the marker cannot be
    written. *)
Theorem directory_in_place_of_marker cls loc kw w d t self :
  dirs w !! loc = Some d →
  d !! "version" = Some (Dir t) →
  FileCache.__set_duration (Instance_ cls loc (None, 0)) kw w = (Return self, w) →
  FileCache.__init__ cls (Some loc) kw w
  = (Raise IOError, with_folder loc (clear_folder d) w).
Proof.
  intros Hd Hv Hk. rewrite init_given_location. unfold mbind, M_bind, bind.
  rewrite Hk. destruct (set_duration_keeps _ _ _ _ _ Hk) as (_ & Hloc & _).
  cbn in Hloc. rewrite <- Hloc in *.
  by rewrite (check_version_marker_is_directory self w d t Hd Hv).
Qed.

(** When the version check returns, the marker holds the running version. *)
Lemma check_version_returns self w w1 :
  FileCache.__check_version self w = (Return tt, w1) →
  ∃ d t, dirs w1 !! location self = Some d
    ∧ d !! "version" = Some (File (Bytes suds___version__) t).
Proof.
  destruct (dirs w !! location self) as [d|] eqn:Hd.
  - destruct (d !! "version") as [[c t|t]|] eqn:Hv.
    + assert (c = Bytes suds___version__ ∨ c ≠ Bytes suds___version__)
        as [->|Hne].
      { destruct c as [v|]; [|by right].
        destruct (String.eqb_spec v suds___version__) as [->|Hne];
          [by left | right; congruence]. }
      * rewrite (check_version_current self w d t Hd Hv). intros [= <-]. eauto.
      * rewrite (check_version_stale self w d Hd) by (by rewrite Hv).
        intros [= <-]. eexists _, _. split; [apply dirs_with_folder|].
        apply lookup_insert_eq.
    + by rewrite (check_version_marker_is_directory self w d t Hd Hv).
    + rewrite (check_version_stale self w d Hd) by (by rewrite Hv).
      intros [= <-]. eexists _, _. split; [apply dirs_with_folder|].
      apply lookup_insert_eq.
  - rewrite (check_version_missing self w Hd). destruct (mkdir_ok w); [|done].
    intros [= <-]. eexists _, _. split; [apply dirs_with_folder|].
    apply lookup_singleton_eq.
Qed.

(** [__set_duration] does not look at the world. *)
Lemma set_duration_world self kw w w' :
  FileCache.__set_duration self kw w'
  = ((FileCache.__set_duration self kw w).1, w').
Proof.
  unfold FileCache.__set_duration. destruct (length kw =? 1)%nat; [|done].
  destruct kw as [|arg kw]; [done|]. by destruct (negb _).
Qed.

(** X18: a construction that returns leaves the folder in a state on
    which the same construction changes nothing: a cache can be constructed
    again and again over its folder without losing an entry. *)
Theorem construction_settles cls loc kw w self w1 :
  FileCache.__init__ cls (Some loc) kw w = (Return self, w1) →
  FileCache.__init__ cls (Some loc) kw w1 = (Return self, w1).
Proof.
  rewrite !init_given_location. unfold mbind, M_bind, bind.
  rewrite (set_duration_world _ kw w w1).
  destruct (FileCache.__set_duration _ kw w) as [[self0|e] w0] eqn:Hk; [|done].
  cbn [fst].
  destruct (FileCache.__check_version self0 w0) as [[[]|e] w2] eqn:Hc; [|done].
  intros [= <- <-].
  destruct (check_version_returns self0 w0 w2 Hc) as (d & t & Hd & Hv).
  by rewrite (check_version_current self0 w2 d t Hd Hv).
Qed.

End Building.

(** ** Side effects and failures *)

Section SideEffects.

Context `{Imports}.

(** X19: [get] on a cache whose folder does not exist returns [None] for
    the three classes; when the cache never expires it creates the folder on
    the way, if it can, and when it expires it changes nothing. *)
Theorem get_on_missing_folder self id w :
  dirs w !! location self = None →
  let w' := if (duration self).2 <? 1
            then (if mkdir_ok w then with_folder (location self) ∅ w else w)
            else w in
  FileCache.get self id w = (Return PyNone, w')
  ∧ DocumentCache.get self id w = (Return PyNone, w')
  ∧ ObjectCache.get self id w = (Return PyNone, w').
Proof.
  intros Hd w'. apply get_None_of_getf.
  assert (lookup_path (FileCache.__filename self id) w = None) as Hp.
  { unfold lookup_path, FileCache.__filename. record_simpl. by rewrite Hd. }
  unfold w'. destruct ((duration self).2 <? 1) eqn:Hn.
  - unfold FileCache._getf, try_except, mbind, M_bind, bind.
    unfold FileCache.__remove_if_expired. rewrite Hn. unfold ret at 1.
    unfold FileCache.__open, mbind, M_bind, bind. rewrite mktmp_exact.
    rewrite open_read_fails by (intros ??; by rewrite lookup_mktmp_world, Hp).
    unfold mktmp_world. by rewrite Hd.
  - unfold FileCache._getf, try_except, mbind, M_bind, bind.
    unfold FileCache.__remove_if_expired. rewrite Hn.
    unfold mbind, M_bind, bind, os_path_getctime. by rewrite Hp.
Qed.

(** X20: no method of [FileCache], and no [put], leaves a file object
    open: after [get], [put], [purge], [clear] and the construction of a
    [FileCache], and after [put] of [DocumentCache] and [ObjectCache], the
    open file objects are those that were open before, on every path,
    raising ones included. *)
Theorem no_file_left_open self id obj cls loc kw w :
  opened (FileCache.get self id w).2 = opened w
  ∧ opened (FileCache.put self id obj w).2 = opened w
  ∧ opened (FileCache.purge self id w).2 = opened w
  ∧ opened (FileCache.clear self w).2 = opened w
  ∧ opened (FileCache.__init__ cls loc kw w).2 = opened w
  ∧ opened (DocumentCache.put self id obj w).2 = opened w
  ∧ opened (ObjectCache.put self id obj w).2 = opened w.
Proof.
  destruct (FileCache_leaves_no_file_open self id obj w)
    as (Hget & Hput & Hpurge & Hclear & _).
  repeat (split; [done|]). split; [|split].
  - destruct loc as [loc|]; [|rewrite init_default_location];
      rewrite init_given_location; unfold mbind, M_bind, bind;
      match goal with
      | |- context [FileCache.__set_duration ?s kw w] =>
          rewrite (set_duration_world s kw w w);
          destruct (FileCache.__set_duration s kw w).1 as [self0|e]; [|done];
          pose proof (check_version_opened self0 w) as Ho;
          destruct (FileCache.__check_version self0 w) as [[[]|e] w1]
      end; done.
  - by destruct (DocumentCache_put_returns self id obj w) as (w' & -> & Ho).
  - pose proof (ObjectCache_put_cases self id obj w) as Hc.
    destruct (pickle_dumps obj) as [data|]; [|by rewrite Hc].
    destruct Hc as (w' & Hf & ->).
    destruct (put_returns self id (PyStr data) w) as (w'' & Hf' & Ho).
    rewrite Hf in Hf'. by injection Hf' as <-.
Qed.

(** X21: [put] of [FileCache] under a safe id, with a value that [write]
    refuses ([None], an element, an object that is not taken as bytes),
    returns the value, but leaves the entry as an empty file: the file is
    opened, and so created or truncated, before the write raises.  (The
    entry must be one [put] can open: the folder exists or can be created,
    and the path of the entry is not a directory.) *)
Theorem put_of_non_bytes_truncates self id obj w d :
  safe_id self id →
  bytes_of obj = None →
  dirs (mktmp_world self w) !! location self = Some d →
  (∀ t, d !! base (FileCache.__filename self id) ≠ Some (Dir t)) →
  FileCache.put self id obj w
  = (Return obj,
     with_folder (location self)
       (<[base (FileCache.__filename self id) := File (Bytes "") (clock w)]> d)
       (mktmp_world self w)).
Proof.
  intros _ Hobj Hd Hn.
  unfold FileCache.put, try_except, mbind, M_bind, bind.
  rewrite (open_write_exact self (FileCache.__filename self id) w d eq_refl Hd Hn).
  unfold try_finally, file_write, file_close. cbn [fmode fileno].
  rewrite Hobj. unfold raise, ret. cbn [fst snd].
  f_equal. rewrite <- (opened_mktmp_world self w).
  destruct (mktmp_world self w). unfold with_folder. record_simpl.
  by rewrite fresh_closed.
Qed.

(** X22: a [put] that cannot write says nothing: when the folder is
    missing and cannot be created, or when a directory sits at the path of
    the entry, [put] returns its argument and changes nothing, and the entry
    is absent for [get]. *)
Theorem put_fails_silently self id obj w :
  (dirs w !! location self = None ∧ mkdir_ok w = false)
  ∨ (∃ t, lookup_path (FileCache.__filename self id) w = Some (Dir t)) →
  FileCache.put self id obj w = (Return obj, w)
  ∧ (FileCache.get self id w).1 = Return PyNone.
Proof.
  intros Hcase.
  assert (mktmp_world self w = w) as Hm.
  { destruct Hcase as [[Hd Hk]|[t Hp]].
    - unfold mktmp_world. by rewrite Hd, Hk.
    - apply mktmp_world_exists.
      change (location self) with (folder (FileCache.__filename self id)).
      apply lookup_path_folder. by rewrite Hp. }
  assert (∀ c t, lookup_path (FileCache.__filename self id) w
                 ≠ Some (File c t)) as Hn.
  { intros c t. destruct Hcase as [[Hd _]|[t' Hp]]; [|by rewrite Hp].
    unfold lookup_path, FileCache.__filename. record_simpl. by rewrite Hd. }
  split.
  - unfold FileCache.put, try_except, mbind, M_bind, bind, FileCache.__open.
    unfold mbind, M_bind, bind. rewrite mktmp_exact, Hm.
    assert (open_ (FileCache.__filename self id) ModeWrite w = (Raise IOError, w))
      as ->; [|done].
    unfold open_. destruct Hcase as [[Hd _]|[t' Hp]].
    + unfold FileCache.__filename. record_simpl. by rewrite Hd.
    + rewrite Hp. by destruct (dirs w !! _).
  - destruct (getf_not_a_file self id w Hn) as [Hg|Hg];
      by destruct (get_None_of_getf _ _ _ _ Hg) as (-> & _).
Qed.

End SideEffects.

(** ** The further properties on examples *)

Section FurtherExamples.

#[local] Existing Instance sample_imports.

(** X1 on two instances of [FileCache] and the id [a]. *)
Lemma filename_determines_entry_witness :
  let self := Instance_ FileCacheClass "/tmp/suds" (None, 0) in
  let self' := Instance_ FileCacheClass "/var/cache" (Some "days", 1) in
  class_ self = class_ self' ∧ "a" = "a".
Proof.
  intros self self'.
  exact (filename_determines_entry self self' "a" "a" eq_refl).
Defined.

(** X2 on the folder of the examples, for a [put]. *)
Lemma operations_touch_only_their_entry_witness :
  let self := Instance_ FileCacheClass "/tmp/suds" (None, 0) in
  let w := sample_world sample_folder 5 in
  safe_id self "c"
  ∧ changes_entry_only self (FileCache.__filename self "c") w
      (FileCache.put self "c" (PyStr "y") w).2.
Proof.
  intros self w.
  assert (safe_id self "c") as Hsafe by (vm_compute; reflexivity).
  split; [exact Hsafe|].
  exact (proj1 (proj2 (operations_touch_only_their_entry (H:=sample_imports)
                         self "c" (PyStr "y") Hsafe)) w).
Defined.

(** X3 on the folder of the examples, with a byte array, read a year after
    the [put]. *)
Lemma FileCache_put_then_get_witness :
  let self := Instance_ FileCacheClass "/tmp/suds" (None, 0) in
  let w := sample_world sample_folder 5 in
  let data : object := PyObject (PyByteArray "y") in
  (FileCache.put self "c" data w).1 = Return data
  ∧ FileCache.get self "c"
      (set_clock 31536000000000 (FileCache.put self "c" data w).2)
    = (Return (PyStr "y"),
       set_clock 31536000000000 (FileCache.put self "c" data w).2).
Proof.
  intros self w data.
  apply (FileCache_put_then_get (H:=sample_imports) self "c" data "y" w
           sample_folder 31536000000000).
  - vm_compute. reflexivity.
  - reflexivity.
  - reflexivity.
  - intros t. vm_compute. discriminate.
  - left. reflexivity.
Defined.

(** X4 on the folder of the examples, with the object [True]. *)
Lemma ObjectCache_put_then_get_witness :
  let self := Instance_ ObjectCacheClass "/tmp/suds" (Some "hours", 1) in
  let w := sample_world sample_folder 5 in
  (ObjectCache.put self "c" (PyObject PyTrue) w).1 = Return (PyObject PyTrue)
  ∧ (ObjectCache.get self "c"
       (set_clock 3600000005 (ObjectCache.put self "c" (PyObject PyTrue) w).2)).1
    = Return (PyObject PyTrue).
Proof.
  intros self w.
  apply (ObjectCache_put_then_get (H:=sample_imports) self "c" (PyObject PyTrue) "T." w
           sample_folder 3600000005).
  - vm_compute. reflexivity.
  - reflexivity.
  - reflexivity.
  - reflexivity.
  - intros t. vm_compute. discriminate.
  - right. exists "hours", 3600000000. vm_compute.
    repeat split; discriminate.
Defined.

(** X5 on the folder of the examples, with the element [<a/>]: [get]
    returns the document of which it is the root. *)
Lemma DocumentCache_put_then_get_witness :
  let self := Instance_ DocumentCacheClass "/tmp/suds" (None, 0) in
  let w := sample_world sample_folder 5 in
  (DocumentCache.put self "c" (PyElement "<a/>") w).1 = Return (PyElement "<a/>")
  ∧ (DocumentCache.get self "c"
       (set_clock 6 (DocumentCache.put self "c" (PyElement "<a/>") w).2)).1
    = Return (PyObject (PyDocument "<a/>")).
Proof.
  intros self w.
  apply (DocumentCache_put_then_get (H:=sample_imports) self "c" "<a/>"
           (PyObject (PyDocument "<a/>")) w sample_folder 6).
  - vm_compute. reflexivity.
  - reflexivity.
  - reflexivity.
  - intros t. vm_compute. discriminate.
  - left. reflexivity.
Defined.

(** X6 on the folder of the examples. *)
Lemma put_overwrites_witness :
  let self := Instance_ FileCacheClass "/tmp/suds" (None, 0) in
  let w := sample_world sample_folder 5 in
  FileCache.put self "a" (PyStr "z") (FileCache.put self "a" (PyStr "y") w).2
  = FileCache.put self "a" (PyStr "z") w.
Proof.
  intros self w. apply (put_overwrites (H:=sample_imports) self "a" "y" "z" w sample_folder).
  - reflexivity.
  - intros t. vm_compute. discriminate.
Defined.

(** X7 on the folder of the examples, with a negative duration. *)
Lemma never_expires_witness :
  let self := Instance_ FileCacheClass "/tmp/suds" (Some "days", -3) in
  let w := sample_world sample_folder 31536000000000 in
  FileCache.get self "a" w = (Return (PyStr "x"), w).
Proof.
  intros self w. apply (never_expires (H:=sample_imports) self "a" w "x" 0); reflexivity.
Defined.

(** X8 on the folder of the examples: two days and one microsecond after
    its creation, an entry of a cache of two days is gone. *)
Lemma expiry_threshold_witness :
  let self := Instance_ FileCacheClass "/tmp/suds" (Some "days", 2) in
  let w := sample_world sample_folder 172800000001 in
  FileCache.get self "a" w
  = (Return PyNone, update_path (FileCache.__filename self "a") None w).
Proof.
  intros self w.
  refine (proj1 (expiry_threshold (H:=sample_imports) self "a" w "x" 0 2 "days" 86400000000
                   eq_refl _ eq_refl _ eq_refl _ _));
    vm_compute; discriminate.
Defined.

(** X9 on the folder of the examples. *)
Lemma months_cache_serves_nothing_witness :
  let self := Instance_ FileCacheClass "/tmp/suds" (Some "months", 1) in
  let w := sample_world sample_folder 5 in
  FileCache.get self "a" w = (Return PyNone, w).
Proof.
  intros self w.
  refine (proj1 (months_cache_serves_nothing (H:=sample_imports) self "a" w 1 eq_refl _)).
  vm_compute. discriminate.
Defined.


(** X12 on the folder of the examples. *)
Lemma clear_empties_cache_witness :
  let self := Instance_ FileCacheClass "/tmp/suds" (None, 0) in
  let w := sample_world sample_folder 5 in
  safe_id self "a"
  ∧ (FileCache.get self "a" (FileCache.clear self w).2).1 = Return PyNone
  ∧ FileCache.clear self (FileCache.clear self w).2
    = (Return tt, (FileCache.clear self w).2).
Proof.
  intros self w.
  assert (safe_id self "a") as Hsafe by (vm_compute; reflexivity).
  split; [exact Hsafe|].
  destruct (clear_empties_cache (H:=sample_imports) self w sample_folder eq_refl)
    as [Hget Hclear].
  split; [exact (proj1 (Hget "a" Hsafe)) | exact Hclear].
Defined.

(** X13 with the keyword [years]. *)
Lemma unknown_unit_is_refused_witness :
  let w := sample_world sample_folder 5 in
  ∃ msg, FileCache.__init__ FileCacheClass None [("years", 1)] w
         = (Raise (Exception msg), w).
Proof.
  intros w. apply (unknown_unit_is_refused (H:=sample_imports) FileCacheClass None "years" 1 w).
  apply (proj1 (bool_decide_eq_false _)). vm_compute. reflexivity.
Defined.

(** X14 with the keyword [days]. *)
Lemma unit_is_stored_witness :
  let w := sample_world sample_folder 5 in
  (FileCache.__init__ FileCacheClass (Some "/tmp/suds") [("days", 3)] w).1
  = Return (Instance_ FileCacheClass "/tmp/suds" (Some "days", 3)).
Proof.
  intros w.
  rewrite (unit_is_stored (H:=sample_imports) FileCacheClass (Some "/tmp/suds")
             "days" 3 w).
  - vm_compute. reflexivity.
  - apply (proj1 (bool_decide_eq_true _)). vm_compute. reflexivity.
Defined.

(** X15 on a folder whose marker is of the running version. *)
Lemma current_version_keeps_cache_witness :
  let d : gmap string node :=
    {[ "suds-a.gcf" := File (Bytes "x") 0;
       "version" := File (Bytes "0.4.1") 0 ]} in
  let w := sample_world d 5 in
  FileCache.__init__ FileCacheClass (Some "/tmp/suds") [] w
  = (Return (Instance_ FileCacheClass "/tmp/suds" (None, 0)), w).
Proof.
  intros d w.
  apply (current_version_keeps_cache (H:=sample_imports) FileCacheClass
           "/tmp/suds" [] w d 0); reflexivity.
Defined.

(** X16 on a file system without the folder, where it can be created. *)
Lemma missing_folder_witness :
  let w := World ∅ true 5 ∅ "/tmp" in
  FileCache.__init__ FileCacheClass (Some "/tmp/suds") [] w
  = (Return (Instance_ FileCacheClass "/tmp/suds" (None, 0)),
     with_folder "/tmp/suds" {["version" := File (Bytes "0.4.1") 5]} w).
Proof.
  intros w.
  exact (missing_folder (H:=sample_imports) FileCacheClass "/tmp/suds" [] w
           (Instance_ FileCacheClass "/tmp/suds" (None, 0)) eq_refl eq_refl).
Defined.

(** X17 on a folder with a directory named [version]. *)
Lemma directory_in_place_of_marker_witness :
  let d : gmap string node :=
    {[ "suds-a.gcf" := File (Bytes "x") 0; "version" := Dir 0 ]} in
  let w := sample_world d 5 in
  FileCache.__init__ FileCacheClass (Some "/tmp/suds") [] w
  = (Raise IOError, with_folder "/tmp/suds" (clear_folder d) w).
Proof.
  intros d w.
  apply (directory_in_place_of_marker (H:=sample_imports) FileCacheClass
           "/tmp/suds" [] w d 0
           (Instance_ FileCacheClass "/tmp/suds" (None, 0))); reflexivity.
Defined.

(** X18 on the folder of the examples, whose marker is of an older
    version. *)
Lemma construction_settles_witness :
  let w := sample_world sample_folder 5 in
  let self := Instance_ FileCacheClass "/tmp/suds" (None, 0) in
  let w1 := (FileCache.__init__ FileCacheClass (Some "/tmp/suds") [] w).2 in
  FileCache.__init__ FileCacheClass (Some "/tmp/suds") [] w1 = (Return self, w1).
Proof.
  intros w self w1.
  apply (construction_settles (H:=sample_imports) FileCacheClass "/tmp/suds"
           [] w self w1).
  vm_compute. reflexivity.
Defined.

(** X19 on a file system without the folder. *)
Lemma get_on_missing_folder_witness :
  let w := World ∅ true 5 ∅ "/tmp" in
  let self := Instance_ FileCacheClass "/tmp/suds" (None, 0) in
  FileCache.get self "a" w = (Return PyNone, with_folder "/tmp/suds" ∅ w).
Proof.
  intros w self.
  exact (proj1 (get_on_missing_folder (H:=sample_imports) self "a" w eq_refl)).
Defined.

(** X21 with the value [None], which [write] refuses. *)
Lemma put_of_non_bytes_truncates_witness :
  let self := Instance_ FileCacheClass "/tmp/suds" (None, 0) in
  let w := sample_world sample_folder 5 in
  FileCache.put self "a" PyNone w
  = (Return PyNone,
     with_folder "/tmp/suds"
       (<["suds-a.gcf" := File (Bytes "") 5]> sample_folder) w).
Proof.
  intros self w.
  apply (put_of_non_bytes_truncates (H:=sample_imports) self "a" PyNone w
           sample_folder).
  - vm_compute. reflexivity.
  - reflexivity.
  - reflexivity.
  - intros t. vm_compute. discriminate.
Defined.

(** X22 on a file system where the folder cannot be created. *)
Lemma put_fails_silently_witness :
  let self := Instance_ FileCacheClass "/tmp/suds" (None, 0) in
  let w := World ∅ false 5 ∅ "/tmp" in
  FileCache.put self "a" (PyStr "x") w = (Return (PyStr "x"), w)
  ∧ (FileCache.get self "a" w).1 = Return PyNone.
Proof.
  intros self w.
  apply (put_fails_silently (H:=sample_imports) self "a" (PyStr "x") w).
  left. split; reflexivity.
Defined.

End FurtherExamples.
